(** * The public timeline of mip-dapp: feed loader and filter/sort/paginate engine

    A shallow embedding of
      - [src/hooks/use-public-timeline.ts]  (comparator [sortAssetsDesc], hook
        [usePublicTimeline] with its one-shot loader [loadCollectionOnce]);
      - [src/components/timeline.tsx]       (component [Timeline]: the derived
        values [filteredAssets], [paginatedAssets], [activeFilterCount], and the
        handlers [loadMore], [clearFilters], [removeFilter], [toggleExpanded]).

    JavaScript values are modelled as far as the two files use them; React's
    hooks are modelled by explicit state passing. *)

From Stdlib Require Import ZArith List Bool Ascii String Lia Sorted.
From stdpp Require Import base gmap strings pretty.
#[local] Set Warnings "-clear-no-such-hyp".
Import ListNotations.
Local Open Scope string_scope.
Local Open Scope Z_scope.

(** ** JavaScript numbers, strings and values *)

Module JS.

(** The numbers of the two files are time values (integral milliseconds),
    numeric identifiers, array lengths and their sums and differences.  They
    are modelled by the integers together with [NaN]; on these values the
    arithmetic of doubles is exact.  Non-integral and infinite doubles are
    outside the model. *)
Inductive number : Type :=
  | NaN
  | Num (z : Z).

Definition isNaN (n : number) : bool :=
  match n with NaN => true | Num _ => false end.

(** [x - y] *)
Definition num_sub (x y : number) : number :=
  match x, y with
  | Num a, Num b => Num (a - b)
  | _, _ => NaN
  end.

(** [x + y] on numbers *)
Definition num_add (x y : number) : number :=
  match x, y with
  | Num a, Num b => Num (a + b)
  | _, _ => NaN
  end.

(** [x !== y] on numbers: [NaN] differs from everything, itself included. *)
Definition strict_ne (x y : number) : bool :=
  match x, y with
  | Num a, Num b => negb (a =? b)
  | _, _ => true
  end.

(** [x <= 0], [x < 0], [x > 0]: every comparison with [NaN] is false. *)
Definition le0 (x : number) : bool :=
  match x with Num a => a <=? 0 | NaN => false end.
Definition lt0 (x : number) : bool :=
  match x with Num a => a <? 0 | NaN => false end.
Definition gt0 (x : number) : bool :=
  match x with Num a => 0 <? a | NaN => false end.

(** The values that occur in [activeFilterCount]: strings, numbers, booleans. *)
Inductive value : Type :=
  | VStr (s : string)
  | VNum (n : number)
  | VBool (b : bool).

Definition str_truthy (s : string) : bool :=
  match s with EmptyString => false | String _ _ => true end.

(** [Boolean(v)] *)
Definition truthy (v : value) : bool :=
  match v with
  | VStr s => str_truthy s
  | VNum NaN => false
  | VNum (Num z) => negb (z =? 0)
  | VBool b => b
  end.

(** [a && b] *)
Definition and_ (a b : value) : value := if truthy a then b else a.

(** [ToNumber] on booleans and numbers (strings are concatenated by [+]
    before they are ever converted). *)
Definition bool_to_number (b : bool) : number := if b then Num 1 else Num 0.

(** [ToString]; integers print in decimal. *)
Definition number_to_string (n : number) : string :=
  match n with NaN => "NaN" | Num z => pretty z end.

Definition to_string (v : value) : string :=
  match v with
  | VStr s => s
  | VNum n => number_to_string n
  | VBool true => "true"
  | VBool false => "false"
  end.

(** [a + b]: concatenation as soon as one operand is a string, numeric
    addition otherwise. *)
Definition js_plus (a b : value) : value :=
  match a, b with
  | VStr _, _ | _, VStr _ => VStr (String.append (to_string a) (to_string b))
  | VNum x, VNum y => VNum (num_add x y)
  | VNum x, VBool y => VNum (num_add x (bool_to_number y))
  | VBool x, VNum y => VNum (num_add (bool_to_number x) y)
  | VBool x, VBool y => VNum (num_add (bool_to_number x) (bool_to_number y))
  end.

(** [arr.length] *)
Definition length_of {A} (l : list A) : number := Num (Z.of_nat (List.length l)).

(** [arr.filter(Boolean)] and [arr.reduce(f, init)] *)
Definition filter_Boolean (l : list value) : list value := List.filter truthy l.
Definition reduce {A B} (f : B -> A -> B) (init : B) (l : list A) : B :=
  fold_left f l init.

(** *** Strings *)

(** [s.includes(t)] *)
Fixpoint includes (s t : string) : bool :=
  String.prefix t s ||
  match s with
  | EmptyString => false
  | String _ r => includes r t
  end.

(** The white space that [\s] matches among the ASCII characters. *)
Definition is_space (c : ascii) : bool :=
  let n := nat_of_ascii c in
  ((n =? 32) || ((9 <=? n) && (n <=? 13)))%nat.

(** [s.replace(/\s+/g, "-")]: every maximal run of white space becomes one
    hyphen.  [in_run] tells that the previous character was white space. *)
Fixpoint replace_spaces_from (in_run : bool) (s : string) : string :=
  match s with
  | EmptyString => EmptyString
  | String c r =>
      if is_space c
      then (if in_run then replace_spaces_from true r
            else String "-" (replace_spaces_from true r))
      else String c (replace_spaces_from false r)
  end.
Definition replace_spaces (s : string) : string := replace_spaces_from false s.

(** [arr.some(p)] and [arr.includes(x)] on arrays of strings *)
Definition array_some {A} (p : A -> bool) (l : list A) : bool := existsb p l.
Definition array_includes (l : list string) (x : string) : bool :=
  existsb (String.eqb x) l.

(** [arr.slice(0, n)] for an integer [n >= 0] *)
Definition slice0 {A} (n : Z) (l : list A) : list A := firstn (Z.to_nat n) l.

(** [arr.sort(cmp)].  ECMAScript requires a stable sort and reads a
    comparator result [NaN] as [+0]; the algorithm is left open.  The model
    is the stable insertion sort: [x] moves behind [y] exactly when
    [cmp(x, y) > 0]. *)
Section Sort.
Context {A : Type} (cmp : A -> A -> number).

Fixpoint insert_sorted (x : A) (l : list A) : list A :=
  match l with
  | [] => [x]
  | y :: r => if gt0 (cmp x y) then y :: insert_sorted x r else x :: l
  end.

Definition array_sort (l : list A) : list A := fold_right insert_sorted [] l.
End Sort.

(** [Number(v)]; [Number] on a string is the host's numeric-literal parser. *)
Definition Number (of_string : string -> number) (v : value) : number :=
  match v with
  | VStr s => of_string s
  | VNum n => n
  | VBool b => bool_to_number b
  end.

End JS.

Import JS.

(** ** The filter configuration ([FilterState] of the filter drawer) *)

Record FilterState : Type := mkFilters {
  search : string;
  assetTypes : list string;
  licenses : list string;
  verifiedOnly : bool;
  dateRange : string;
  sortBy : string;
  tags : list string;
  priceRange : Z * Z;
}.

Definition defaultFilters : FilterState := {|
  search := "";
  assetTypes := [];
  licenses := [];
  verifiedOnly := false;
  dateRange := "all";
  sortBy := "recent";
  tags := [];
  priceRange := (0, 100);
|}.

Definition ASSETS_PER_PAGE : Z := 10.

(** [s !== t] on strings, as a JavaScript boolean *)
Definition str_ne (s t : string) : value := VBool (negb (String.eqb s t)).

(** [activeFilterCount] (timeline.tsx, lines 98-110) *)
Definition activeFilterCount (filters : FilterState) : value :=
  reduce js_plus (VNum (Num 0))
    (filter_Boolean
       [ and_ (VStr (search filters)) (VNum (Num 1));
         VNum (length_of (assetTypes filters));
         VNum (length_of (licenses filters));
         and_ (VBool (verifiedOnly filters)) (VNum (Num 1));
         and_ (str_ne (dateRange filters) "all") (VNum (Num 1));
         and_ (str_ne (sortBy filters) "recent") (VNum (Num 1));
         VNum (length_of (tags filters)) ]).

(** ** Assets ([AssetIP]) and the host functions *)

Module Asset.

Record Creator : Type := mkCreator {
  name : string;
  verified : bool;
}.

(** The fields the two files read.  The fields that the code tests for
    presence ([registrationDate], [timestamp], [tokenId], [id]) may be
    [undefined]. *)
Record AssetIP : Type := mkAsset {
  id : option string;
  slug : string;
  title : string;
  description : string;
  type : string;
  tags : string;
  licenseType : string;
  creator : Creator;
  registrationDate : option string;
  timestamp : option string;
  tokenId : option string;
}.

End Asset.

Abbreviation AssetIP := Asset.AssetIP.

(** The built-ins whose result depends on the engine or on the locale. *)
Record Host : Type := mkHost {
  (** [Date.parse(s)]: a time value, or [NaN] for an unrecognised string *)
  Date_parse : string -> number;
  (** [Number(s)] on a string *)
  Number_of_string : string -> number;
  (** [s.localeCompare(t)]: negative, zero or positive *)
  localeCompare : string -> string -> number;
  (** [s.toLowerCase()] on a string that is not empty: the case mapping of
      the Unicode standard, which works on whole strings (some characters map
      according to their neighbours) *)
  lowerCase : string -> string;
}.

(** What every engine guarantees and the proofs use: the empty string is not
    a date. *)
Definition host_ok (h : Host) : Prop := Date_parse h "" = NaN.

Section WithHost.
Context (h : Host).

(** [s.toLowerCase()]: the empty string has no character to map. *)
Definition toLowerCase (s : string) : string :=
  match s with
  | EmptyString => EmptyString
  | String _ _ => lowerCase h s
  end.

(** [Date.parse(d)] and [new Date(d).getTime()] for a field that may be
    [undefined]: both are [NaN] then, and both parse a string the same way. *)
Definition Date_parse_field (d : option string) : number :=
  match d with Some s => Date_parse h s | None => NaN end.
Definition Date_getTime (d : option string) : number :=
  match d with Some s => Date_parse h s | None => NaN end.

(** Truthiness of a field that may be [undefined] *)
Definition field_truthy (d : option string) : bool :=
  match d with Some s => str_truthy s | None => false end.

(** [x ?? y] with [y] already a value *)
Definition nullish (x : option string) (y : value) : value :=
  match x with Some s => VStr s | None => y end.

(** [aTime] / [bTime] of [sortAssetsDesc] (use-public-timeline.ts, 15-24) *)
Definition orderTime (a : AssetIP) : number :=
  if field_truthy (Asset.registrationDate a)
     && negb (isNaN (Date_parse_field (Asset.registrationDate a)))
  then Date_getTime (Asset.registrationDate a)
  else if field_truthy (Asset.timestamp a)
          && negb (isNaN (Date_parse_field (Asset.timestamp a)))
  then Date_getTime (Asset.timestamp a)
  else Num 0.

(** [aId] / [bId]: [Number(a.tokenId ?? a.id ?? 0)] (lines 27-28) *)
Definition orderId (a : AssetIP) : number :=
  Number (Number_of_string h)
    (nullish (Asset.tokenId a) (nullish (Asset.id a) (VNum (Num 0)))).

(** [sortAssetsDesc] (use-public-timeline.ts, 14-30) *)
Definition sortAssetsDesc (a b : AssetIP) : number :=
  let aTime := orderTime a in
  let bTime := orderTime b in
  if strict_ne bTime aTime then num_sub bTime aTime
  else
    let aId := orderId a in
    let bId := orderId b in
    num_sub bId aId.

(** The comparators of the [switch] in [filteredAssets] (timeline.tsx, 77-89) *)
Definition cmp_alphabetical (a b : AssetIP) : number :=
  localeCompare h (Asset.title a) (Asset.title b).
Definition cmp_popular (a b : AssetIP) : number :=
  num_sub (Date_getTime (Asset.timestamp b)) (Date_getTime (Asset.timestamp a)).
Definition cmp_trending (a b : AssetIP) : number :=
  num_sub (Date_getTime (Asset.registrationDate b))
          (Date_getTime (Asset.registrationDate a)).

(** The predicates of the five [filter] calls (timeline.tsx, 40-74) *)
Definition matches_search (filters : FilterState) (asset : AssetIP) : bool :=
  let q := toLowerCase (search filters) in
  includes (toLowerCase (Asset.title asset)) q
  || includes (toLowerCase (Asset.description asset)) q
  || includes (toLowerCase (Asset.name (Asset.creator asset))) q
  || includes (toLowerCase (Asset.tags asset)) q.

Definition matches_type (filters : FilterState) (asset : AssetIP) : bool :=
  array_includes (assetTypes filters) (toLowerCase (Asset.type asset)).

Definition matches_license (filters : FilterState) (asset : AssetIP) : bool :=
  let assetLicense := replace_spaces (toLowerCase (Asset.licenseType asset)) in
  array_some
    (fun license => includes assetLicense license || includes license assetLicense)
    (licenses filters).

Definition matches_verified (asset : AssetIP) : bool :=
  Asset.verified (Asset.creator asset).

Definition matches_tags (filters : FilterState) (asset : AssetIP) : bool :=
  array_some
    (fun tag => includes (toLowerCase (Asset.tags asset)) (toLowerCase tag))
    (tags filters).

(** [filteredAssets] (timeline.tsx, 37-92) *)
Definition filteredAssets (assets : list AssetIP) (filters : FilterState)
  : list AssetIP :=
  let filtered := assets in
  let filtered :=
    if str_truthy (search filters)
    then List.filter (matches_search filters) filtered else filtered in
  let filtered :=
    if (0 <? Z.of_nat (List.length (assetTypes filters)))
    then List.filter (matches_type filters) filtered else filtered in
  let filtered :=
    if (0 <? Z.of_nat (List.length (licenses filters)))
    then List.filter (matches_license filters) filtered else filtered in
  let filtered :=
    if verifiedOnly filters
    then List.filter matches_verified filtered else filtered in
  let filtered :=
    if (0 <? Z.of_nat (List.length (tags filters)))
    then List.filter (matches_tags filters) filtered else filtered in
  if String.eqb (sortBy filters) "alphabetical"
  then array_sort cmp_alphabetical filtered
  else if String.eqb (sortBy filters) "popular"
  then array_sort cmp_popular filtered
  else if String.eqb (sortBy filters) "trending"
  then array_sort cmp_trending filtered
  else filtered.

(** [paginatedAssets] (timeline.tsx, 94-96) *)
Definition paginatedAssets (filtered : list AssetIP) (currentPage : Z)
  : list AssetIP :=
  slice0 (currentPage * ASSETS_PER_PAGE) filtered.

End WithHost.

(** ** The component [Timeline]: its state and handlers *)

(** A filter configuration as React sees it: an object with an identity.
    [useState] and the dependency list of [useEffect] compare objects with
    [Object.is], that is by identity. *)
Record FilterObj : Type := mkObj {
  ident : nat;
  config : FilterState;
}.

Definition Object_is (x y : FilterObj) : bool := Nat.eqb (ident x) (ident y).

(** The module-level constant [defaultFilters] is one object. *)
Definition defaultFiltersObj : FilterObj := {| ident := 0; config := defaultFilters |}.

(** The five [useState] cells of [Timeline]; [fresh] numbers the objects that
    the handlers allocate. *)
Record TimelineState : Type := mkTimeline {
  filters : FilterObj;
  expandedAssets : gset string;
  currentPage : Z;
  isPaging : bool;
  hasMore : bool;
  fresh : nat;
}.

Definition initialTimeline : TimelineState := {|
  filters := defaultFiltersObj;
  expandedAssets := ∅;
  currentPage := 1;
  isPaging := false;
  hasMore := true;
  fresh := 1;
|}.

Definition setCurrentPage (p : Z) (st : TimelineState) : TimelineState :=
  {| filters := filters st; expandedAssets := expandedAssets st;
     currentPage := p; isPaging := isPaging st; hasMore := hasMore st;
     fresh := fresh st |}.
Definition setIsPaging (b : bool) (st : TimelineState) : TimelineState :=
  {| filters := filters st; expandedAssets := expandedAssets st;
     currentPage := currentPage st; isPaging := b; hasMore := hasMore st;
     fresh := fresh st |}.
Definition setHasMore (b : bool) (st : TimelineState) : TimelineState :=
  {| filters := filters st; expandedAssets := expandedAssets st;
     currentPage := currentPage st; isPaging := isPaging st; hasMore := b;
     fresh := fresh st |}.
Definition setExpandedAssets (f : gset string -> gset string) (st : TimelineState)
  : TimelineState :=
  {| filters := filters st; expandedAssets := f (expandedAssets st);
     currentPage := currentPage st; isPaging := isPaging st;
     hasMore := hasMore st; fresh := fresh st |}.

(** The effect "Reset pagination when filters change" (timeline.tsx, 140-143) *)
Definition resetPaginationEffect (st : TimelineState) : TimelineState :=
  setHasMore true (setCurrentPage 1 st).

(** [setFilters(o)]: React keeps the state and renders nothing when [o] is the
    object already held; otherwise it renders with [o], and the effect whose
    dependency list is [[filters]] runs because the dependency is a different
    object. *)
Definition setFilters (o : FilterObj) (st : TimelineState) : TimelineState :=
  if Object_is o (filters st) then st
  else resetPaginationEffect
         {| filters := o; expandedAssets := expandedAssets st;
            currentPage := currentPage st; isPaging := isPaging st;
            hasMore := hasMore st; fresh := fresh st |}.

(** [setFilters((prev) => ({ ...prev, ... }))]: the updater builds a new
    object. *)
Definition setFiltersWith (upd : FilterState -> FilterState) (st : TimelineState)
  : TimelineState :=
  let o := {| ident := fresh st; config := upd (config (filters st)) |} in
  setFilters o
    {| filters := filters st; expandedAssets := expandedAssets st;
       currentPage := currentPage st; isPaging := isPaging st;
       hasMore := hasMore st; fresh := S (fresh st) |}.

(** [clearFilters] (timeline.tsx, 145-147) *)
Definition clearFilters (st : TimelineState) : TimelineState :=
  setFilters defaultFiltersObj st.

(** [arr.filter((t) => t !== value)] *)
Definition without (value : option string) (l : list string) : list string :=
  List.filter
    (fun t => match value with
              | Some v => negb (String.eqb t v)
              | None => true
              end) l.

(** [removeFilter] (timeline.tsx, 149-176); the optional [value] is only read
    by the cases that remove one element. *)
Definition removeFilter (type : string) (value : option string)
  (st : TimelineState)
  : TimelineState :=
  if String.eqb type "search" then
    setFiltersWith (fun prev =>
      {| search := ""; assetTypes := assetTypes prev; licenses := licenses prev;
         verifiedOnly := verifiedOnly prev; dateRange := dateRange prev;
         sortBy := sortBy prev; tags := tags prev;
         priceRange := priceRange prev |}) st
  else if String.eqb type "assetType" then
    setFiltersWith (fun prev =>
      {| search := search prev; assetTypes := without value (assetTypes prev);
         licenses := licenses prev; verifiedOnly := verifiedOnly prev;
         dateRange := dateRange prev; sortBy := sortBy prev; tags := tags prev;
         priceRange := priceRange prev |}) st
  else if String.eqb type "license" then
    setFiltersWith (fun prev =>
      {| search := search prev; assetTypes := assetTypes prev;
         licenses := without value (licenses prev);
         verifiedOnly := verifiedOnly prev; dateRange := dateRange prev;
         sortBy := sortBy prev; tags := tags prev;
         priceRange := priceRange prev |}) st
  else if String.eqb type "verified" then
    setFiltersWith (fun prev =>
      {| search := search prev; assetTypes := assetTypes prev;
         licenses := licenses prev; verifiedOnly := false;
         dateRange := dateRange prev; sortBy := sortBy prev; tags := tags prev;
         priceRange := priceRange prev |}) st
  else if String.eqb type "tag" then
    setFiltersWith (fun prev =>
      {| search := search prev; assetTypes := assetTypes prev;
         licenses := licenses prev; verifiedOnly := verifiedOnly prev;
         dateRange := dateRange prev; sortBy := sortBy prev;
         tags := without value (tags prev);
         priceRange := priceRange prev |}) st
  else st.

(** [toggleExpanded] (timeline.tsx, 178-188): the updater copies the set,
    then deletes the identifier if the copy has it and adds it otherwise. *)
Definition toggle (assetId : string) (prev : gset string) : gset string :=
  let newSet := prev in
  if decide (assetId ∈ newSet) then newSet ∖ {[ assetId ]}
  else newSet ∪ {[ assetId ]}.

Definition toggleExpanded (assetId : string) (st : TimelineState) : TimelineState :=
  setExpandedAssets (toggle assetId) st.

(** *** [loadMore] (timeline.tsx, 112-125)

    [useCallback] rebuilds the function at each render over the values of that
    render.  A call runs up to the [await], and the rest runs after the
    400 ms timer with the same captured values. *)
Record LoadMoreClosure : Type := mkClosure {
  c_currentPage : Z;
  c_totalAvailable : Z;     (* filteredAssets.length *)
  c_isPaging : bool;
  c_hasMore : bool;
}.

Definition renderLoadMore (filtered : list AssetIP) (st : TimelineState)
  : LoadMoreClosure :=
  {| c_currentPage := currentPage st;
     c_totalAvailable := Z.of_nat (List.length filtered);
     c_isPaging := isPaging st;
     c_hasMore := hasMore st |}.

(** Up to the [await]: [None] when the call returns at once, [Some c] when the
    timer is armed and the continuation is pending. *)
Definition loadMore_call (c : LoadMoreClosure) (st : TimelineState)
  : TimelineState * option LoadMoreClosure :=
  if c_isPaging c || negb (c_hasMore c) then (st, None)
  else (setIsPaging true st, Some c).

(** After the timer *)
Definition loadMore_resume (c : LoadMoreClosure) (st : TimelineState)
  : TimelineState :=
  let nextPage := c_currentPage c + 1 in
  let totalAvailable := c_totalAvailable c in
  let nextPageAssets := totalAvailable - c_currentPage c * ASSETS_PER_PAGE in
  let st := if nextPageAssets <=? 0 then setHasMore false st
            else setCurrentPage nextPage st in
  setIsPaging false st.

(** One advance from the current render with nothing else happening during
    the delay. *)
Definition loadMore (filtered : list AssetIP) (st : TimelineState)
  : TimelineState :=
  match loadMore_call (renderLoadMore filtered st) st with
  | (st', Some c) => loadMore_resume c st'
  | (st', None) => st'
  end.

(** Number of cards the component renders *)
Definition visibleCount (filtered : list AssetIP) (st : TimelineState) : nat :=
  List.length (paginatedAssets filtered (currentPage st)).

(** ** The hook [usePublicTimeline] *)

(** What [collectionsService.getCollectionAssets] settles with: the assets, or
    a thrown value.  Of a thrown value the handler reads [e?.message]. *)
Inductive Thrown : Type :=
  | ThrownNullish                         (* null or undefined *)
  | ThrownObject (message : option string).

Inductive Outcome : Type :=
  | Resolved (assets : list AssetIP)
  | Rejected (e : Thrown).

(** [e?.message ?? "Failed to load timeline"] *)
Definition errorMessage (e : Thrown) : string :=
  match e with
  | ThrownObject (Some m) => m
  | ThrownObject None | ThrownNullish => "Failed to load timeline"
  end.

(** The three [useState] cells and the ref of the hook.  [requests] and
    [inFlight] are not in the code: they count the calls of
    [getCollectionAssets] made so far and those not settled yet. *)
Record LoaderState : Type := mkLoader {
  allAssets : list AssetIP;
  isLoading : bool;
  error : option string;
  fetchedRef : bool;
  requests : nat;
  inFlight : nat;
}.

Definition initialLoader : LoaderState := {|
  allAssets := [];
  isLoading := false;
  error := None;
  fetchedRef := false;
  requests := 0;
  inFlight := 0;
|}.

Section Loader.
Context (h : Host).

(** [loadCollectionOnce] up to the [await] (use-public-timeline.ts, 45-49) *)
Definition loadCollectionOnce (s : LoaderState) : LoaderState :=
  if fetchedRef s then s
  else {| allAssets := allAssets s;
          isLoading := true;
          error := None;
          fetchedRef := fetchedRef s;
          requests := S (requests s);
          inFlight := S (inFlight s) |}.

(** [loadCollectionOnce] after the [await]: the [try] continues, or [catch]
    runs; [finally] in both cases (lines 50-59) *)
Definition loadCollectionOnce_settle (r : Outcome) (s : LoaderState)
  : LoaderState :=
  match r with
  | Resolved assets =>
      let sorted := array_sort (sortAssetsDesc h) assets in
      {| allAssets := sorted;
         isLoading := false;
         error := error s;
         fetchedRef := true;
         requests := requests s;
         inFlight := pred (inFlight s) |}
  | Rejected e =>
      {| allAssets := [];
         isLoading := false;
         error := Some (errorMessage e);
         fetchedRef := fetchedRef s;
         requests := requests s;
         inFlight := pred (inFlight s) |}
  end.

(** [refetch: loadCollectionOnce] (line 70) *)
Definition refetch (s : LoaderState) : LoaderState := loadCollectionOnce s.

(** What can happen to a mounted hook: the mount effect runs
    [loadCollectionOnce], a consumer calls [refetch], or a pending request
    settles. *)
Inductive Event : Type :=
  | Activate
  | Refetch
  | Settle (r : Outcome).

Definition step (ev : Event) (s : LoaderState) : option LoaderState :=
  match ev with
  | Activate => Some (loadCollectionOnce s)
  | Refetch => Some (refetch s)
  | Settle r =>
      match inFlight s with
      | O => None
      | S _ => Some (loadCollectionOnce_settle r s)
      end
  end.

Fixpoint run (evs : list Event) (s : LoaderState) : option LoaderState :=
  match evs with
  | [] => Some s
  | ev :: rest =>
      match step ev s with
      | Some s' => run rest s'
      | None => None
      end
  end.

(** The states of a mount lifecycle *)
Definition reachable (s : LoaderState) : Prop :=
  exists evs, run evs initialLoader = Some s.

End Loader.

(** ** A concrete host, for running the definitions

    [Date.parse] restricted to the interchange format that [toISOString]
    writes, [YYYY-MM-DDTHH:mm:ss.sssZ] (any other string is [NaN]); [Number]
    on the empty string and on plain decimal digit strings (any other string
    is [NaN]); [localeCompare] by code units; [toLowerCase] on the ASCII
    letters, the other characters staying as they are. *)

Module IsoHost.

Definition digit (c : ascii) : option Z :=
  let n := nat_of_ascii c in
  if ((48 <=? n) && (n <=? 57))%nat then Some (Z.of_nat n - 48) else None.

Fixpoint digits_from (acc : Z) (s : string) : option Z :=
  match s with
  | EmptyString => Some acc
  | String c r =>
      match digit c with
      | Some d => digits_from (10 * acc + d) r
      | None => None
      end
  end.

Definition digits (s : string) : option Z :=
  match s with
  | EmptyString => None
  | _ => digits_from 0 s
  end.

Definition is_leap (y : Z) : bool :=
  ((y mod 4 =? 0) && negb (y mod 100 =? 0)) || (y mod 400 =? 0).

Definition days_in_month (y m : Z) : Z :=
  if m =? 2 then (if is_leap y then 29 else 28)
  else if (m =? 4) || (m =? 6) || (m =? 9) || (m =? 11) then 30
  else 31.

(** Days from 1970-01-01 to the given civil date *)
Definition days_from_civil (y m d : Z) : Z :=
  let y' := if m <=? 2 then y - 1 else y in
  let era := y' / 400 in
  let yoe := y' - era * 400 in
  let mp := if 2 <? m then m - 3 else m + 9 in
  let doy := (153 * mp + 2) / 5 + d - 1 in
  let doe := yoe * 365 + yoe / 4 - yoe / 100 + doy in
  era * 146097 + doe - 719468.

Definition char_at (i : nat) (s : string) (c : ascii) : bool :=
  match String.get i s with
  | Some c' => Ascii.eqb c c'
  | None => false
  end.

Definition field (start len : nat) (s : string) : option Z :=
  digits (String.substring start len s).

Definition Date_parse (s : string) : number :=
  if (Nat.eqb (String.length s) 24)
     && char_at 4 s "-" && char_at 7 s "-" && char_at 10 s "T"
     && char_at 13 s ":" && char_at 16 s ":" && char_at 19 s "."
     && char_at 23 s "Z"
  then
    match field 0 4 s, field 5 2 s, field 8 2 s,
          field 11 2 s, field 14 2 s, field 17 2 s, field 20 3 s with
    | Some y, Some mo, Some d, Some hh, Some mi, Some ss, Some ms =>
        if (1 <=? mo) && (mo <=? 12) && (1 <=? d) && (d <=? days_in_month y mo)
           && (mi <=? 59) && (ss <=? 59)
           && ((hh <=? 23) || ((hh =? 24) && (mi =? 0) && (ss =? 0) && (ms =? 0)))
        then Num (days_from_civil y mo d * 86400000
                  + hh * 3600000 + mi * 60000 + ss * 1000 + ms)
        else NaN
    | _, _, _, _, _, _, _ => NaN
    end
  else NaN.

Definition Number_of_string (s : string) : number :=
  match s with
  | EmptyString => Num 0
  | _ => match digits s with Some z => Num z | None => NaN end
  end.

Definition localeCompare (s t : string) : number :=
  match String.compare s t with
  | Lt => Num (-1)
  | Eq => Num 0
  | Gt => Num 1
  end.

Definition lower_ascii (c : ascii) : ascii :=
  let n := nat_of_ascii c in
  if ((65 <=? n) && (n <=? 90))%nat then ascii_of_nat (n + 32) else c.

Fixpoint lowerCase (s : string) : string :=
  match s with
  | EmptyString => EmptyString
  | String c r => String (lower_ascii c) (lowerCase r)
  end.

Definition host : Host :=
  mkHost Date_parse Number_of_string localeCompare lowerCase.

End IsoHost.

(** ** The properties, stated independently of the code *)

Definition indicator (b : bool) : Z := if b then 1 else 0.
Definition count {A} (l : list A) : Z := Z.of_nat (List.length l).

(** The active filter count as the specification words it: price range is
    not among the summands. *)
Definition activeFilterCount_spec (f : FilterState) : Z :=
  indicator (negb (String.eqb (search f) ""))
  + count (assetTypes f)
  + count (licenses f)
  + indicator (verifiedOnly f)
  + indicator (negb (String.eqb (dateRange f) "all"))
  + indicator (negb (String.eqb (sortBy f) "recent"))
  + count (tags f).

Definition with_priceRange (pr : Z * Z) (f : FilterState) : FilterState :=
  {| search := search f; assetTypes := assetTypes f; licenses := licenses f;
     verifiedOnly := verifiedOnly f; dateRange := dateRange f;
     sortBy := sortBy f; tags := tags f; priceRange := pr |}.

(** The configuration [{search: "cat", tags: ["art", "photo"]}], the other
    fields as in the default. *)
Definition catFilters : FilterState := {|
  search := "cat";
  assetTypes := [];
  licenses := [];
  verifiedOnly := false;
  dateRange := "all";
  sortBy := "recent";
  tags := ["art"; "photo"];
  priceRange := (0, 100);
|}.

(** A value of the array in [activeFilterCount] contributes [k]: it is
    dropped by [filter(Boolean)] and [k] is zero, or it is the number [k]. *)
Definition contributes (v : value) (k : Z) : Prop :=
  (truthy v = false /\ k = 0) \/ v = VNum (Num k).

Definition total (ks : list Z) : Z := fold_right Z.add 0 ks.

(** The effective order time as the specification words it: the registration
    date parsed as a timestamp; if that is absent or unparsable the generic
    timestamp, parsed likewise; if that too is absent or unparsable, zero. *)
Definition parsed (h : Host) (d : option string) : option Z :=
  match d with
  | None => None
  | Some s => match Date_parse h s with Num t => Some t | NaN => None end
  end.

Definition effectiveTime (h : Host) (a : AssetIP) : Z :=
  match parsed h (Asset.registrationDate a) with
  | Some t => t
  | None =>
      match parsed h (Asset.timestamp a) with
      | Some t => t
      | None => 0
      end
  end.

(** The numeric identifier of the tie-break: the token identifier as a
    number, the identifier as a number if the token identifier is absent, and
    zero if both are absent. *)
Definition numericId (h : Host) (a : AssetIP) : number :=
  match Asset.tokenId a with
  | Some s => Number_of_string h s
  | None =>
      match Asset.id a with
      | Some s => Number_of_string h s
      | None => Num 0
      end
  end.

(** A date field read with zero for an absent or unparsable value, and the
    comparators of the "popular" and "trending" modes over it. *)
Definition timeOrZero (h : Host) (d : option string) : number :=
  match parsed h d with Some t => Num t | None => Num 0 end.
Definition cmp_popular_zero (h : Host) (a b : AssetIP) : number :=
  num_sub (timeOrZero h (Asset.timestamp b)) (timeOrZero h (Asset.timestamp a)).
Definition cmp_trending_zero (h : Host) (a b : AssetIP) : number :=
  num_sub (timeOrZero h (Asset.registrationDate b))
          (timeOrZero h (Asset.registrationDate a)).

(** Two filter configurations that differ at most in the date range and the
    price range. *)
Definition same_but_ranges (f g : FilterState) : Prop :=
  search f = search g /\ assetTypes f = assetTypes g
  /\ licenses f = licenses g /\ verifiedOnly f = verifiedOnly g
  /\ sortBy f = sortBy g /\ tags f = tags g.

(** Sample assets *)
Definition sampleAsset (ident title : string) (registered stamp : option string)
  : AssetIP :=
  {| Asset.id := Some ident;
     Asset.slug := title;
     Asset.title := title;
     Asset.description := "";
     Asset.type := "Art";
     Asset.tags := "art, photo";
     Asset.licenseType := "Creative Commons";
     Asset.creator := {| Asset.name := "ana"; Asset.verified := true |};
     Asset.registrationDate := registered;
     Asset.timestamp := stamp;
     Asset.tokenId := Some ident |}.

(** An asset whose two date fields hold text that is not a date, and one
    with both dates set. *)
Definition undatedAsset : AssetIP :=
  sampleAsset "1" "Cat sketch" (Some "") (Some "").
Definition datedAsset : AssetIP :=
  sampleAsset "2" "Harbour photo" (Some "2024-01-01T00:00:00.000Z")
                          (Some "2024-01-01T00:00:00.000Z").

Definition with_sortBy (mode : string) (f : FilterState) : FilterState :=
  {| search := search f; assetTypes := assetTypes f; licenses := licenses f;
     verifiedOnly := verifiedOnly f; dateRange := dateRange f;
     sortBy := mode; tags := tags f; priceRange := priceRange f |}.

(** The loader properties as the specification words them. *)

(** After a successful fetch an explicit [refetch] performs a new request. *)
Definition refetch_requests_after_success (h : Host) : Prop :=
  forall evs s,
    run h evs initialLoader = Some s -> fetchedRef s = true ->
    requests (refetch s) = S (requests s).

(** At most one collection fetch is in flight at any time, and a trigger
    arriving while one is in flight is a no-op. *)
Definition single_fetch_in_flight (h : Host) : Prop :=
  forall evs s,
    run h evs initialLoader = Some s ->
    (inFlight s <= 1)%nat
    /\ ((0 < inFlight s)%nat -> loadCollectionOnce s = s /\ refetch s = s).

(** A list of [n] assets *)
Definition assetsOfLength (n : nat) : list AssetIP := repeat datedAsset n.

(** A timeline scrolled to its end (page 3, nothing more), and a new filter
    object that differs from the default in the price range only. *)
Definition scrolledTimeline : TimelineState := {|
  filters := defaultFiltersObj;
  expandedAssets := ∅;
  currentPage := 3;
  isPaging := false;
  hasMore := false;
  fresh := 1;
|}.

Definition repricedFiltersObj : FilterObj :=
  {| ident := 1; config := with_priceRange (5, 50) defaultFilters |}.

Definition with_dateRange (dr : string) (f : FilterState) : FilterState :=
  {| search := search f; assetTypes := assetTypes f; licenses := licenses f;
     verifiedOnly := verifiedOnly f; dateRange := dr;
     sortBy := sortBy f; tags := tags f; priceRange := priceRange f |}.

(** A failure with a message *)
Definition networkDown : Thrown := ThrownObject (Some "network down").

(** The pagination is at its start. *)
Definition paginationReset (st : TimelineState) : Prop :=
  currentPage st = 1 /\ hasMore st = true.

(** What holds of every state the handlers produce from the initial one: the
    object held was allocated before [fresh], and the object numbered 0 is the
    constant [defaultFilters]. *)
Definition timeline_wf (st : TimelineState) : Prop :=
  (ident (filters st) < fresh st)%nat
  /\ (ident (filters st) = 0%nat -> config (filters st) = defaultFilters).

(** A timeline at page 3 whose configuration, set by an earlier handler,
    selects two tags. *)
Definition taggedTimeline : TimelineState := {|
  filters := {| ident := 1; config := catFilters |};
  expandedAssets := ∅;
  currentPage := 3;
  isPaging := false;
  hasMore := false;
  fresh := 2;
|}.

(** ** Further definitions for the properties of the handlers and the view *)

(** The conjunction of the five predicates of [filteredAssets], each one
    counted only when its field is set. *)
Definition passes (h : Host) (f : FilterState) (a : AssetIP) : bool :=
  (negb (str_truthy (search f)) || matches_search h f a)
  && (negb (0 <? Z.of_nat (List.length (assetTypes f))) || matches_type h f a)
  && (negb (0 <? Z.of_nat (List.length (licenses f))) || matches_license h f a)
  && (negb (verifiedOnly f) || matches_verified a)
  && (negb (0 <? Z.of_nat (List.length (tags f))) || matches_tags h f a).

(** The sort modes for which the [switch] of [filteredAssets] sorts. *)
Definition sorting_mode (mode : string) : bool :=
  String.eqb mode "alphabetical" || String.eqb mode "popular"
  || String.eqb mode "trending".

(** [-x] *)
Definition num_neg (x : number) : number :=
  match x with NaN => NaN | Num z => Num (- z) end.

(** The identifier used by the tie-break is a number. *)
Definition numericIdOk (h : Host) (a : AssetIP) : Prop :=
  exists i, numericId h a = Num i.

(** [x] may stand before [y] in the descending timeline order: [x] is later,
    or the times are equal and the numeric identifier of [x] is not smaller. *)
Definition timeline_desc (h : Host) (x y : AssetIP) : Prop :=
  effectiveTime h y < effectiveTime h x
  \/ (effectiveTime h x = effectiveTime h y
      /\ exists i j, numericId h x = Num i /\ numericId h y = Num j /\ j <= i).

(** [k] advances in a row over the same filtered list, each one settled
    before the next starts. *)
Fixpoint loadMoreTimes (filtered : list AssetIP) (k : nat) (st : TimelineState)
  : TimelineState :=
  match k with
  | O => st
  | S k' => loadMoreTimes filtered k' (loadMore filtered st)
  end.

(** The events that call [loadCollectionOnce] *)
Definition is_trigger (ev : Event) : Prop :=
  ev = Activate \/ ev = Refetch.

(** What holds of the loader in every state of a mount lifecycle *)
Definition loader_inv (s : LoaderState) : Prop :=
  (inFlight s <= requests s)%nat
  /\ (fetchedRef s = false -> allAssets s = [])
  /\ (isLoading s = true -> (1 <= inFlight s)%nat).

(** *** What [Timeline] renders (timeline.tsx, 205-253)

    The three branches of the conditional in the returned element: the error
    panel with the message, the empty panel with its heading and (when not
    loading) the hint line, or the list of cards with the paging indicator and
    the end-of-results line. *)
Inductive View : Type :=
  | ErrorPanel (message : string)
  | EmptyPanel (heading : string) (hint : bool)
  | AssetList (cards : list AssetIP) (pagingIndicator : bool) (endOfResults : bool).

Definition render (h : Host) (hook : LoaderState) (st : TimelineState) : View :=
  let filtered := filteredAssets h (allAssets hook) (config (filters st)) in
  let paginated := paginatedAssets filtered (currentPage st) in
  if field_truthy (error hook) then
    ErrorPanel (match error hook with Some m => m | None => "" end)
  else if Z.of_nat (List.length filtered) =? 0 then
    EmptyPanel (if isLoading hook then "Loading assets..." else "No assets found")
               (negb (isLoading hook))
  else
    AssetList paginated (isPaging st)
              (negb (hasMore st) && (0 <? Z.of_nat (List.length paginated))).

(** A failure whose message is the empty string *)
Definition silentFailure : Thrown := ThrownObject (Some "").

(** [w] occurs in [s] as a substring. *)
Definition occurs_in (w s : string) : Prop :=
  exists pre post, s = String.append pre (String.append w post).

(** The kinds that [removeFilter] recognises *)
Definition known_kind (kind : string) : bool :=
  String.eqb kind "search" || String.eqb kind "assetType"
  || String.eqb kind "license" || String.eqb kind "verified"
  || String.eqb kind "tag".

(** [new] is [old] without the occurrences of [v]. *)
Definition removed (v : string) (old new : list string) : Prop :=
  forall t, In t new <-> In t old /\ t <> v.

(** Every field of [g] other than the one named by [kind] is as in [f]. *)
Definition others_kept (kind : string) (f g : FilterState) : Prop :=
  (kind <> "search" -> search g = search f)
  /\ (kind <> "assetType" -> assetTypes g = assetTypes f)
  /\ (kind <> "license" -> licenses g = licenses f)
  /\ (kind <> "verified" -> verifiedOnly g = verifiedOnly f)
  /\ (kind <> "tag" -> tags g = tags f)
  /\ dateRange g = dateRange f
  /\ sortBy g = sortBy f
  /\ priceRange g = priceRange f.

(** The slug that the license filter compares: the license type in lower
    case with every run of white space replaced by a hyphen. *)
Definition licenseSlug (h : Host) (a : AssetIP) : string :=
  replace_spaces (toLowerCase h (Asset.licenseType a)).

(** *** The component as a machine

    The state of the component together with the continuations of [loadMore]
    whose timer has not fired yet.  Each scroll event that reaches the bottom
    zone calls the [loadMore] of the latest render, over the assets the hook
    publishes at that moment; a timer event runs the oldest pending
    continuation. *)
Inductive TimelineEvent : Type :=
  | ScrollToBottom (assets : list AssetIP)
  | TimerFires
  | ClickClear
  | ClickRemove (kind : string) (value : option string)
  | ClickToggle (assetId : string).

Definition timeline_step (h : Host) (ev : TimelineEvent)
  (m : TimelineState * list LoadMoreClosure)
  : option (TimelineState * list LoadMoreClosure) :=
  let (st, pending) := m in
  match ev with
  | ScrollToBottom assets =>
      let filtered := filteredAssets h assets (config (filters st)) in
      match loadMore_call (renderLoadMore filtered st) st with
      | (st', Some c) => Some (st', (pending ++ [c])%list)
      | (st', None) => Some (st', pending)
      end
  | TimerFires =>
      match pending with
      | [] => None
      | c :: rest => Some (loadMore_resume c st, rest)
      end
  | ClickClear => Some (clearFilters st, pending)
  | ClickRemove kind value => Some (removeFilter kind value st, pending)
  | ClickToggle assetId => Some (toggleExpanded assetId st, pending)
  end.

Fixpoint timeline_run (h : Host) (evs : list TimelineEvent)
  (m : TimelineState * list LoadMoreClosure)
  : option (TimelineState * list LoadMoreClosure) :=
  match evs with
  | [] => Some m
  | ev :: rest =>
      match timeline_step h ev m with
      | Some m' => timeline_run h rest m'
      | None => None
      end
  end.

(** What holds of the machine throughout *)
Definition timeline_inv (m : TimelineState * list LoadMoreClosure) : Prop :=
  1 <= currentPage (fst m)
  /\ timeline_wf (fst m)
  /\ (List.length (snd m) <= 1)%nat
  /\ (isPaging (fst m) = true <-> snd m <> [])
  /\ Forall (fun c => 1 <= c_currentPage c) (snd m).

(** *** Unparsable fields on lists that the loader receives and publishes *)

(** The numeric identifier read with zero for an unparsable value, and the
    timeline comparator over it: what "an unparsable numeric field is treated
    as zero" asks of [sortAssetsDesc]. *)
Definition numericIdOrZero (h : Host) (a : AssetIP) : number :=
  match numericId h a with NaN => Num 0 | Num i => Num i end.

Definition sortAssetsDesc_zero (h : Host) (a b : AssetIP) : number :=
  if effectiveTime h b =? effectiveTime h a
  then num_sub (numericIdOrZero h b) (numericIdOrZero h a)
  else Num (effectiveTime h b - effectiveTime h a).

(** Two assets registered at the same time, one with an identifier that is
    not a numeric literal. *)
Definition unnumberedAsset : AssetIP :=
  sampleAsset "abc" "Untitled draft" (Some "2024-01-01T00:00:00.000Z")
                                     (Some "2024-01-01T00:00:00.000Z").
Definition numberedAsset : AssetIP :=
  sampleAsset "5" "Numbered print" (Some "2024-01-01T00:00:00.000Z")
                                   (Some "2024-01-01T00:00:00.000Z").

(** An asset registered in March whose generic timestamp is not a date, and
    one stamped in March whose registration date is not a date. *)
Definition unstampedAsset : AssetIP :=
  sampleAsset "9" "Late upload" (Some "2024-03-01T00:00:00.000Z") (Some "").
Definition unregisteredAsset : AssetIP :=
  sampleAsset "8" "Import" (Some "") (Some "2024-03-01T00:00:00.000Z").

(** What every engine computes on the strings of these assets. *)
Definition engine_facts (h : Host) : Prop :=
  Date_parse h "" = NaN
  /\ Date_parse h "2024-01-01T00:00:00.000Z" = Num 1704067200000
  /\ Date_parse h "2024-03-01T00:00:00.000Z" = Num 1709251200000
  /\ Number_of_string h "abc" = NaN
  /\ Number_of_string h "5" = Num 5.

(** ** Active filter count *)

Lemma contributes_and_string (s : string) :
  contributes (and_ (VStr s) (VNum (Num 1)))
              (indicator (negb (String.eqb s ""))).
Proof.
  destruct s as [|c r]; [left | right]; split || reflexivity; reflexivity.
Qed.

Lemma contributes_and_bool (b : bool) :
  contributes (and_ (VBool b) (VNum (Num 1))) (indicator b).
Proof.
  destruct b; [right | left]; split || reflexivity; reflexivity.
Qed.

Lemma contributes_length {A} (l : list A) :
  contributes (VNum (length_of l)) (count l).
Proof. right. reflexivity. Qed.

Lemma VNum_Num_eq (a b : Z) : a = b -> VNum (Num a) = VNum (Num b).
Proof. intros ->. reflexivity. Qed.

Lemma reduce_contributions (vs : list value) (ks : list Z) :
  Forall2 contributes vs ks ->
  forall acc,
    reduce js_plus (VNum (Num acc)) (filter_Boolean vs)
    = VNum (Num (acc + total ks)).
Proof.
  induction 1 as [|v k vs ks Hv _ IH]; intros acc; cbn.
  - apply VNum_Num_eq; unfold total; cbn [fold_right]; lia.
  - destruct Hv as [[Hf ->] | ->].
    + rewrite Hf. unfold reduce, filter_Boolean in IH. rewrite IH.
      apply VNum_Num_eq; unfold total; cbn [fold_right]; lia.
    + cbn. destruct (Z.eqb_spec k 0) as [-> | Hk]; cbn.
      * unfold reduce, filter_Boolean in IH. rewrite IH. apply VNum_Num_eq; unfold total; cbn [fold_right]; lia.
      * unfold reduce, filter_Boolean in IH. rewrite IH. apply VNum_Num_eq; unfold total; cbn [fold_right]; lia.
Qed.

(** C1.  For every filter configuration the active filter count is the number
    given by the sum of: 1 for a non-empty search string, the number of
    selected asset types, the number of selected licenses, 1 for verified-only,
    1 for a date range other than "all", 1 for a sort mode other than
    "recent", and the number of selected tags.  The price range does not
    contribute.  The count is 3 for {search:"cat", tags:["art","photo"]} and 0
    for the default configuration. *)
Theorem activeFilterCount_correct :
  (forall f : FilterState,
      activeFilterCount f = VNum (Num (activeFilterCount_spec f)))
  /\ (forall (f : FilterState) (pr : Z * Z),
         activeFilterCount (with_priceRange pr f) = activeFilterCount f)
  /\ activeFilterCount catFilters = VNum (Num 3)
  /\ activeFilterCount defaultFilters = VNum (Num 0).
Proof.
  assert (Hgen : forall f,
             activeFilterCount f = VNum (Num (activeFilterCount_spec f))).
  { intros f. unfold activeFilterCount.
    rewrite (reduce_contributions _
               [ indicator (negb (String.eqb (search f) ""));
                 count (assetTypes f); count (licenses f);
                 indicator (verifiedOnly f);
                 indicator (negb (String.eqb (dateRange f) "all"));
                 indicator (negb (String.eqb (sortBy f) "recent"));
                 count (tags f) ]).
    - unfold activeFilterCount_spec, total. cbn [fold_right].
      apply VNum_Num_eq; unfold total; cbn [fold_right]; lia.
    - unfold str_ne.
      constructor; [exact (contributes_and_string _)|].
      constructor; [exact (contributes_length _)|].
      constructor; [exact (contributes_length _)|].
      constructor; [exact (contributes_and_bool _)|].
      constructor; [exact (contributes_and_bool _)|].
      constructor; [exact (contributes_and_bool _)|].
      constructor; [exact (contributes_length _)|].
      constructor. }
  split; [exact Hgen|]. split; [|split].
  - intros f pr. rewrite !Hgen. reflexivity.
  - reflexivity.
  - reflexivity.
Qed.

(** ** Sorting keeps the elements *)

Lemma insert_sorted_Permutation {A} (cmp : A -> A -> number) (x : A)
  (l : list A) :
  Permutation (insert_sorted cmp x l) (x :: l).
Proof.
  induction l as [|y r IH]; cbn; [reflexivity|].
  destruct (gt0 (cmp x y)); [|reflexivity].
  rewrite IH. apply perm_swap.
Qed.

Lemma array_sort_Permutation {A} (cmp : A -> A -> number) (l : list A) :
  Permutation (array_sort cmp l) l.
Proof.
  induction l as [|x l IH]; cbn; [reflexivity|].
  rewrite insert_sorted_Permutation. apply perm_skip, IH.
Qed.

(** ** The descending timeline comparator *)

Lemma orderTime_effectiveTime (h : Host) (a : AssetIP) :
  host_ok h -> orderTime h a = Num (effectiveTime h a).
Proof.
  intros Hok. unfold orderTime, effectiveTime, parsed, Date_parse_field,
    Date_getTime, field_truthy.
  destruct (Asset.registrationDate a) as [[|c r]|];
    destruct (Asset.timestamp a) as [[|c' r']|]; cbn;
    rewrite ?Hok; cbn;
    repeat match goal with
           | |- context [Date_parse h ?s] =>
               destruct (Date_parse h s); cbn
           end; reflexivity.
Qed.

Lemma orderId_numericId (h : Host) (a : AssetIP) :
  orderId h a = numericId h a.
Proof.
  unfold orderId, numericId, nullish.
  destruct (Asset.tokenId a); [reflexivity|].
  destruct (Asset.id a); reflexivity.
Qed.

Lemma sortAssetsDesc_unfold (h : Host) (a b : AssetIP) :
  host_ok h ->
  sortAssetsDesc h a b =
    if effectiveTime h b =? effectiveTime h a
    then num_sub (numericId h b) (numericId h a)
    else Num (effectiveTime h b - effectiveTime h a).
Proof.
  intros Hok. unfold sortAssetsDesc.
  rewrite !orderTime_effectiveTime, !orderId_numericId by assumption.
  cbn. destruct (effectiveTime h b =? effectiveTime h a); reflexivity.
Qed.

(** With the dates guarded, the comparator is [NaN] only on a tie of the
    times with a numeric identifier that is [NaN]. *)
Lemma sortAssetsDesc_NaN (h : Host) (a b : AssetIP) :
  host_ok h ->
  sortAssetsDesc h a b = NaN ->
  effectiveTime h a = effectiveTime h b
  /\ (numericId h a = NaN \/ numericId h b = NaN).
Proof.
  intros Hok. rewrite (sortAssetsDesc_unfold h a b Hok).
  destruct (Z.eqb_spec (effectiveTime h b) (effectiveTime h a)) as [E | N];
    [|discriminate].
  intros Hnan. split; [congruence|].
  destruct (numericId h a); [left; reflexivity|].
  destruct (numericId h b); [right; reflexivity | discriminate].
Qed.

(** C2.  The comparator orders two assets by effective time, later first,
    where the effective time is the parsed registration date, else the parsed
    generic timestamp, else zero (absent or unparsable values fall through);
    on a tie of the times it orders by the numeric token identifier, larger
    first, with the identifier taken when the token identifier is absent and
    zero when both are. *)
Theorem sortAssetsDesc_order (h : Host) (a b : AssetIP) :
  host_ok h ->
  (effectiveTime h b < effectiveTime h a -> lt0 (sortAssetsDesc h a b) = true)
  /\ (effectiveTime h a < effectiveTime h b ->
      gt0 (sortAssetsDesc h a b) = true)
  /\ (effectiveTime h a <> effectiveTime h b ->
      sortAssetsDesc h a b = Num (effectiveTime h b - effectiveTime h a))
  /\ (effectiveTime h a = effectiveTime h b ->
      sortAssetsDesc h a b = num_sub (numericId h b) (numericId h a))
  /\ (effectiveTime h a = effectiveTime h b ->
      forall x y, numericId h a = Num x -> numericId h b = Num y ->
        sortAssetsDesc h a b = Num (y - x)
        /\ (lt0 (sortAssetsDesc h a b) = true <-> y < x)
        /\ (gt0 (sortAssetsDesc h a b) = true <-> x < y)).
Proof.
  intros Hok. rewrite (sortAssetsDesc_unfold h a b Hok).
  destruct (Z.eqb_spec (effectiveTime h b) (effectiveTime h a)) as [E | N].
  - split; [lia|]. split; [lia|]. split; [congruence|].
    split; [reflexivity|].
    intros _ x y -> ->. cbn. split; [reflexivity|]. split; lia.
  - split; [intros; cbn; lia|]. split; [intros; cbn; lia|].
    split; [reflexivity|]. split; intros; congruence.
Qed.

Lemma sortAssetsDesc_order_witness :
  host_ok IsoHost.host
  /\ lt0 (sortAssetsDesc IsoHost.host datedAsset undatedAsset) = true.
Proof.
  split; [reflexivity|].
  apply (sortAssetsDesc_order IsoHost.host datedAsset undatedAsset);
    [reflexivity | vm_compute; reflexivity].
Defined.

(** ** Pagination *)

Lemma visibleCount_min (filtered : list AssetIP) (st : TimelineState) :
  visibleCount filtered st
  = Nat.min (Z.to_nat (currentPage st * ASSETS_PER_PAGE)) (List.length filtered).
Proof.
  unfold visibleCount, paginatedAssets, slice0. apply length_firstn.
Qed.

Lemma loadMore_blocked (filtered : list AssetIP) (st : TimelineState) :
  isPaging st = true \/ hasMore st = false ->
  loadMore_call (renderLoadMore filtered st) st = (st, None)
  /\ loadMore filtered st = st.
Proof.
  intros Hb. unfold loadMore, loadMore_call, renderLoadMore; cbn.
  destruct Hb as [-> | ->]; cbn; [|rewrite orb_true_r]; split; reflexivity.
Qed.

Lemma loadMore_free (filtered : list AssetIP) (st : TimelineState) :
  isPaging st = false -> hasMore st = true ->
  loadMore filtered st =
    if count filtered <=? currentPage st * 10
    then setHasMore false st
    else setCurrentPage (currentPage st + 1) st.
Proof.
  intros Hp Hm. unfold loadMore, loadMore_call, renderLoadMore; cbn.
  rewrite Hp, Hm; cbn. unfold loadMore_resume, ASSETS_PER_PAGE, count; cbn.
  destruct st as [f e p ip hm fr]; cbn in *; subst.
  destruct (Z.leb_spec (Z.of_nat (List.length filtered) - p * 10) 0);
    destruct (Z.leb_spec (Z.of_nat (List.length filtered)) (p * 10));
    try lia; reflexivity.
Qed.

(** C3.  [loadMore] does nothing while an advance is in flight or when
    [hasMore] is false.  Otherwise it arms the in-flight flag and, after the
    delay, sets [hasMore] to false and keeps the page count when the filtered
    count is at most page count times 10, and increments the page count by one
    otherwise; the in-flight flag is cleared in both cases.  With 25 filtered
    items the visible counts are 10, 20 and 25 on pages 1, 2 and 3, and the
    advance after that sets [hasMore] to false and leaves the visible count at
    25. *)
Theorem loadMore_advance (filtered : list AssetIP) (st : TimelineState) :
  (isPaging st = true \/ hasMore st = false ->
     loadMore_call (renderLoadMore filtered st) st = (st, None)
     /\ loadMore filtered st = st)
  /\ (isPaging st = false -> hasMore st = true ->
      loadMore_call (renderLoadMore filtered st) st
        = (setIsPaging true st, Some (renderLoadMore filtered st))
      /\ isPaging (loadMore filtered st) = false
      /\ (count filtered <= currentPage st * 10 ->
          loadMore filtered st = setHasMore false st)
      /\ (currentPage st * 10 < count filtered ->
          loadMore filtered st = setCurrentPage (currentPage st + 1) st))
  /\ (forall c st', isPaging (loadMore_resume c st') = false)
  /\ (List.length filtered = 25%nat ->
      currentPage st = 1 -> isPaging st = false -> hasMore st = true ->
      let st1 := loadMore filtered st in
      let st2 := loadMore filtered st1 in
      let st3 := loadMore filtered st2 in
      visibleCount filtered st = 10%nat
      /\ visibleCount filtered st1 = 20%nat
      /\ visibleCount filtered st2 = 25%nat
      /\ hasMore st2 = true
      /\ hasMore st3 = false
      /\ currentPage st3 = currentPage st2
      /\ visibleCount filtered st3 = 25%nat).
Proof.
  split; [apply loadMore_blocked|]. split; [|split].
  - intros Hp Hm. split; [|split; [|split]].
    + unfold loadMore_call, renderLoadMore; cbn. rewrite Hp, Hm. reflexivity.
    + rewrite loadMore_free by assumption.
      destruct (count filtered <=? currentPage st * 10); exact Hp.
    + intros Hle. rewrite loadMore_free by assumption.
      destruct (Z.leb_spec (count filtered) (currentPage st * 10));
        [reflexivity | lia].
    + intros Hlt. rewrite loadMore_free by assumption.
      destruct (Z.leb_spec (count filtered) (currentPage st * 10));
        [lia | reflexivity].
  - intros c st'. reflexivity.
  - intros Hlen Hpage Hp Hm.
    destruct st as [f e p ip hm fr]; cbn in Hpage, Hp, Hm; subst.
    unfold visibleCount, paginatedAssets, slice0, loadMore, loadMore_call,
      renderLoadMore, loadMore_resume, ASSETS_PER_PAGE.
    cbn. rewrite !length_firstn, !Hlen. cbn.
    repeat split.
Qed.

Lemma loadMore_advance_witness :
  List.length (assetsOfLength 25) = 25%nat
  /\ currentPage initialTimeline = 1
  /\ isPaging initialTimeline = false
  /\ hasMore initialTimeline = true
  /\ visibleCount (assetsOfLength 25)
       (loadMore (assetsOfLength 25)
          (loadMore (assetsOfLength 25) initialTimeline)) = 25%nat.
Proof.
  repeat (split; [reflexivity|]).
  apply (loadMore_advance (assetsOfLength 25) initialTimeline); reflexivity.
Defined.

(** ** Reset of the pagination on a change of the filters *)

Lemma setFilters_other_object (st : TimelineState) (o : FilterObj) :
  ident o <> ident (filters st) ->
  filters (setFilters o st) = o
  /\ currentPage (setFilters o st) = 1
  /\ hasMore (setFilters o st) = true.
Proof.
  intros Hne. unfold setFilters, Object_is.
  destruct (Nat.eqb_spec (ident o) (ident (filters st))); [contradiction|].
  repeat split.
Qed.

(** The handlers that build a new object always reset the pagination, also
    when the new configuration equals the old one. *)
Lemma setFiltersWith_resets (upd : FilterState -> FilterState)
  (st : TimelineState) :
  (ident (filters st) < fresh st)%nat ->
  config (filters (setFiltersWith upd st)) = upd (config (filters st))
  /\ currentPage (setFiltersWith upd st) = 1
  /\ hasMore (setFiltersWith upd st) = true.
Proof.
  intros Hlt. unfold setFiltersWith.
  match goal with
  | |- context [setFilters ?o ?s] =>
      destruct (setFilters_other_object s o) as (Hf & Hp & Hm);
        [cbn; lia | rewrite Hf, Hp, Hm]
  end.
  repeat split.
Qed.

Lemma removeFilter_cases (type : string) (value : option string)
  (st : TimelineState) :
  removeFilter type value st = st
  \/ exists upd, removeFilter type value st = setFiltersWith upd st.
Proof.
  unfold removeFilter.
  repeat match goal with
         | |- context [String.eqb type ?k] => destruct (String.eqb type k)
         end; eauto.
Qed.

Lemma timeline_wf_initial : timeline_wf initialTimeline.
Proof. split; [cbn; lia | reflexivity]. Qed.

Lemma timeline_wf_setFiltersWith (upd : FilterState -> FilterState)
  (st : TimelineState) :
  timeline_wf st -> timeline_wf (setFiltersWith upd st).
Proof.
  intros [Hlt H0]. unfold setFiltersWith, setFilters, Object_is. cbn.
  destruct (Nat.eqb_spec (fresh st) (ident (filters st))); [lia|].
  split; cbn; lia.
Qed.

Lemma timeline_wf_clearFilters (st : TimelineState) :
  timeline_wf st -> timeline_wf (clearFilters st).
Proof.
  intros Hwf. unfold clearFilters, setFilters, Object_is.
  destruct (Nat.eqb (ident defaultFiltersObj) (ident (filters st)));
    [exact Hwf|].
  destruct Hwf as [Hlt _]. split; cbn; [lia | reflexivity].
Qed.

Lemma timeline_wf_removeFilter (type : string) (value : option string)
  (st : TimelineState) :
  timeline_wf st -> timeline_wf (removeFilter type value st).
Proof.
  intros Hwf. destruct (removeFilter_cases type value st) as [-> | [upd ->]];
    [exact Hwf | apply timeline_wf_setFiltersWith; exact Hwf].
Qed.

(** C4.  When the filter configuration held by the component is replaced by
    one of a different value (in any field), the page count becomes 1 and
    [hasMore] becomes true: for [setFilters] with any object (objects are not
    mutated in place, so one identity has one value), and for the two handlers
    of the component, [clearFilters] and [removeFilter].  No assumption is made
    on the filtered result, so the reset also happens when the result is
    unchanged. *)
Theorem filters_change_resets_pagination (st : TimelineState) :
  (forall o : FilterObj,
      (ident o = ident (filters st) -> config o = config (filters st)) ->
      config o <> config (filters st) ->
      filters (setFilters o st) = o /\ paginationReset (setFilters o st))
  /\ (timeline_wf st ->
      config (filters (clearFilters st)) <> config (filters st) ->
      paginationReset (clearFilters st))
  /\ (timeline_wf st ->
      forall type value,
        config (filters (removeFilter type value st)) <> config (filters st) ->
        paginationReset (removeFilter type value st)).
Proof.
  split; [|split].
  - intros o Hcoh Hval.
    destruct (setFilters_other_object st o) as (Hf & Hp & Hm); [auto|].
    split; [exact Hf | split; assumption].
  - intros [_ H0] Hval. unfold clearFilters in *.
    destruct (Nat.eq_dec (ident defaultFiltersObj) (ident (filters st)))
      as [E | N].
    + exfalso. apply Hval. unfold setFilters, Object_is.
      rewrite E, Nat.eqb_refl. reflexivity.
    + destruct (setFilters_other_object st defaultFiltersObj N)
        as (_ & Hp & Hm).
      split; assumption.
  - intros [Hlt _] type value Hval.
    destruct (removeFilter_cases type value st) as [E | [upd E]];
      rewrite E in *; [contradiction|].
    destruct (setFiltersWith_resets upd st Hlt) as (_ & Hp & Hm).
    split; assumption.
Qed.

Lemma filters_change_resets_pagination_witness :
  (config repricedFiltersObj <> config (filters scrolledTimeline)
   /\ filteredAssets IsoHost.host [undatedAsset; datedAsset]
        (config repricedFiltersObj)
      = filteredAssets IsoHost.host [undatedAsset; datedAsset]
          (config (filters scrolledTimeline))
   /\ paginationReset (setFilters repricedFiltersObj scrolledTimeline))
  /\ (timeline_wf taggedTimeline
      /\ paginationReset (removeFilter "tag" (Some "art") taggedTimeline)).
Proof.
  split.
  - split; [discriminate|]. split; [reflexivity|].
    apply (proj1 (filters_change_resets_pagination scrolledTimeline)
             repricedFiltersObj);
      cbn; intros E; discriminate E.
  - assert (Hwf : timeline_wf taggedTimeline)
      by (split; cbn; [lia | discriminate]).
    split; [exact Hwf|].
    apply (proj2 (proj2 (filters_change_resets_pagination taggedTimeline)) Hwf).
    cbn. discriminate.
Defined.

(** ** The expansion set *)

Lemma toggle_twice (x : string) (S : gset string) : toggle x (toggle x S) = S.
Proof.
  unfold toggle. destruct (decide (x ∈ S)) as [Hin | Hout].
  - destruct (decide (x ∈ S ∖ {[x]})) as [Hin' | _]; [set_solver|].
    apply set_eq. intros y. destruct (decide (y = x)); set_solver.
  - destruct (decide (x ∈ S ∪ {[x]})) as [_ | Hout']; [|set_solver].
    set_solver.
Qed.

(** C10.  Toggling [x] puts [x] into the expansion set exactly when it was
    not in it and takes it out exactly when it was, the membership of every
    other identifier is unchanged, and toggling the same identifier twice gives
    back the original set. *)
Theorem toggleExpanded_membership (x : string) (st : TimelineState) :
  (x ∈ expandedAssets (toggleExpanded x st) <-> x ∉ expandedAssets st)
  /\ (forall y : string, y <> x ->
        (y ∈ expandedAssets (toggleExpanded x st) <-> y ∈ expandedAssets st))
  /\ expandedAssets (toggleExpanded x (toggleExpanded x st)) = expandedAssets st
  /\ toggleExpanded x (toggleExpanded x st) = st.
Proof.
  destruct st as [f E p ip hm fr]. unfold toggleExpanded, setExpandedAssets.
  cbn. rewrite toggle_twice. repeat split; try (unfold toggle;
    destruct (decide (x ∈ E)); set_solver).
Qed.

(** ** The feed loader *)

Lemma loadCollectionOnce_fetched (s : LoaderState) :
  fetchedRef s = true -> loadCollectionOnce s = s.
Proof. intros Hf. unfold loadCollectionOnce. rewrite Hf. reflexivity. Qed.

Lemma loadCollectionOnce_unfetched (s : LoaderState) :
  fetchedRef s = false ->
  requests (loadCollectionOnce s) = S (requests s)
  /\ inFlight (loadCollectionOnce s) = S (inFlight s)
  /\ isLoading (loadCollectionOnce s) = true
  /\ fetchedRef (loadCollectionOnce s) = false.
Proof.
  intros Hf. unfold loadCollectionOnce. rewrite Hf. cbn. auto.
Qed.

Lemma step_keeps_fetched (h : Host) (ev : Event) (s s' : LoaderState) :
  fetchedRef s = true -> step h ev s = Some s' ->
  fetchedRef s' = true /\ requests s' = requests s.
Proof.
  intros Hf Hstep. destruct ev as [| |r]; cbn in Hstep.
  - unfold refetch in *. rewrite loadCollectionOnce_fetched in Hstep by exact Hf.
    injection Hstep as <-. auto.
  - unfold refetch in *. rewrite loadCollectionOnce_fetched in Hstep by exact Hf.
    injection Hstep as <-. auto.
  - destruct (inFlight s); [discriminate|]. injection Hstep as <-.
    destruct r; cbn; auto.
Qed.

Lemma run_keeps_fetched (h : Host) (evs : list Event) :
  forall s s', fetchedRef s = true -> run h evs s = Some s' ->
               fetchedRef s' = true /\ requests s' = requests s.
Proof.
  induction evs as [|ev evs IH]; intros s s' Hf Hrun; cbn in Hrun.
  - injection Hrun as <-. auto.
  - destruct (step h ev s) as [s1|] eqn:Hstep; [|discriminate].
    destruct (step_keeps_fetched h ev s s1 Hf Hstep) as [Hf1 Hr1].
    destruct (IH s1 s' Hf1 Hrun) as [Hf' Hr']. split; congruence.
Qed.



(** C6 as stated fails: after a successful fetch, [refetch] performs no
    request. *)
Lemma refetch_after_success_counterexample :
  ~ refetch_requests_after_success IsoHost.host.
Proof.
  intros Hclaim.
  specialize (Hclaim [Activate; Settle (Resolved [datedAsset])] _
                eq_refl eq_refl).
  discriminate Hclaim.
Qed.

(** C6, amended.  After a successful fetch no later invocation performs a new
    request: the implicit re-activation and the explicit [refetch] are the same
    guarded operation and both leave the state as it is, whatever happens in
    between.  [refetch] performs a new request only while no fetch has
    succeeded. *)
Theorem no_request_after_success (h : Host) (s : LoaderState) :
  (forall assets,
      fetchedRef (loadCollectionOnce_settle h (Resolved assets) s) = true)
  /\ (fetchedRef s = true ->
      loadCollectionOnce s = s /\ refetch s = s
      /\ step h Activate s = Some s /\ step h Refetch s = Some s)
  /\ (fetchedRef s = true ->
      forall evs s', run h evs s = Some s' ->
                     fetchedRef s' = true /\ requests s' = requests s)
  /\ (fetchedRef s = false -> requests (refetch s) = S (requests s)).
Proof.
  split; [reflexivity|]. split; [|split].
  - intros Hf. cbn. unfold refetch.
    rewrite (loadCollectionOnce_fetched s Hf). auto.
  - intros Hf evs s'. apply run_keeps_fetched. exact Hf.
  - intros Hf. apply loadCollectionOnce_unfetched. exact Hf.
Qed.

Lemma no_request_after_success_witness :
  fetchedRef (loadCollectionOnce_settle IsoHost.host (Resolved [datedAsset])
                (loadCollectionOnce initialLoader)) = true
  /\ refetch (loadCollectionOnce_settle IsoHost.host (Resolved [datedAsset])
                (loadCollectionOnce initialLoader))
     = loadCollectionOnce_settle IsoHost.host (Resolved [datedAsset])
         (loadCollectionOnce initialLoader).
Proof.
  split; [reflexivity|].
  apply (no_request_after_success IsoHost.host
           (loadCollectionOnce_settle IsoHost.host (Resolved [datedAsset])
              (loadCollectionOnce initialLoader))).
  reflexivity.
Defined.

Lemma run_refetches (h : Host) (n : nat) :
  forall s, fetchedRef s = false ->
    exists s', run h (repeat Refetch n) s = Some s'
               /\ inFlight s' = (n + inFlight s)%nat
               /\ fetchedRef s' = false.
Proof.
  induction n as [|n IH]; intros s Hf; cbn.
  - exists s. auto.
  - destruct (loadCollectionOnce_unfetched s Hf) as (_ & Hi & _ & Hf').
    unfold refetch. destruct (IH (loadCollectionOnce s) Hf') as (s' & Hrun & Hin & Hff).
    exists s'. split; [exact Hrun|]. split; [lia | exact Hff].
Qed.

(** C7 as stated fails: an activation followed by a [refetch] before the
    first fetch settles leaves two fetches in flight. *)
Lemma single_fetch_in_flight_counterexample :
  ~ single_fetch_in_flight IsoHost.host.
Proof.
  intros Hclaim.
  destruct (Hclaim [Activate; Refetch] _ eq_refl) as [Hle _].
  cbn in Hle. lia.
Qed.

(** C7, amended.  In every reachable state a trigger (activation or explicit
    [refetch]) is a no-op exactly when some fetch has already completed
    successfully; while none has, the trigger starts one more fetch even if
    others are in flight, so [n] triggers in a row leave [n] fetches in
    flight. *)
Theorem trigger_starts_fetch_until_success (h : Host) :
  (forall evs s ev,
      run h evs initialLoader = Some s ->
      ev = Activate \/ ev = Refetch ->
      exists s',
        step h ev s = Some s'
        /\ (fetchedRef s = true -> s' = s)
        /\ (fetchedRef s = false ->
            inFlight s' = S (inFlight s) /\ requests s' = S (requests s)))
  /\ (forall n,
        exists s, run h (repeat Refetch n) initialLoader = Some s
                  /\ inFlight s = n).
Proof.
  split.
  - intros evs s ev _ Hev. exists (loadCollectionOnce s).
    split; [destruct Hev as [-> | ->]; reflexivity|]. split.
    + apply loadCollectionOnce_fetched.
    + intros Hf.
      destruct (loadCollectionOnce_unfetched s Hf) as (Hr & Hi & _).
      split; assumption.
  - intros n. destruct (run_refetches h n initialLoader eq_refl)
      as (s & Hrun & Hin & _).
    exists s. split; [exact Hrun|]. cbn in Hin. lia.
Qed.

Lemma trigger_starts_fetch_until_success_witness :
  exists s',
    step IsoHost.host Refetch (loadCollectionOnce initialLoader) = Some s'
    /\ (fetchedRef (loadCollectionOnce initialLoader) = true ->
        s' = loadCollectionOnce initialLoader)
    /\ (fetchedRef (loadCollectionOnce initialLoader) = false ->
        inFlight s' = 2%nat /\ requests s' = 2%nat).
Proof.
  apply (proj1 (trigger_starts_fetch_until_success IsoHost.host) [Activate]);
    [reflexivity | right; reflexivity].
Defined.

(** ** Filtering and sorting *)

(** The comparators of the "popular" and "trending" modes return [NaN] as
    soon as one of the two dates is absent or unparsable. *)
Lemma cmp_popular_NaN (h : Host) (a b : AssetIP) :
  Date_getTime h (Asset.timestamp a) = NaN ->
  cmp_popular h a b = NaN /\ cmp_popular h b a = NaN.
Proof.
  intros Ha. unfold cmp_popular. rewrite Ha.
  destruct (Date_getTime h (Asset.timestamp b)); split; reflexivity.
Qed.

Lemma cmp_trending_NaN (h : Host) (a b : AssetIP) :
  Date_getTime h (Asset.registrationDate a) = NaN ->
  cmp_trending h a b = NaN /\ cmp_trending h b a = NaN.
Proof.
  intros Ha. unfold cmp_trending. rewrite Ha.
  destruct (Date_getTime h (Asset.registrationDate b)); split; reflexivity.
Qed.

(** C8, the code at failing inputs.  Under the facts of every engine on the
    strings involved:

    - identifiers, default mode: the loader receives two assets of the same
      time, the first with an identifier that is not a numeric literal;
      [sortAssetsDesc] compares them with [NaN] in both directions, the loader
      publishes them in the fetched order and the component renders that
      order, while the comparison with zero for the unparsable identifier puts
      the asset numbered 5 first;
    - dates, "popular" and "trending" modes: on a list that the loader
      publishes, the asset whose date for that mode is not parsable is
      compared with [NaN] and keeps the first place, while the comparison with
      zero for the missing date puts the dated asset first. *)
Theorem unparsable_field_undefined_order (h : Host) :
  engine_facts h ->
  sortAssetsDesc h unnumberedAsset numberedAsset = NaN
  /\ sortAssetsDesc h numberedAsset unnumberedAsset = NaN
  /\ (exists s,
        run h [Activate; Settle (Resolved [unnumberedAsset; numberedAsset])]
          initialLoader = Some s
        /\ allAssets s = [unnumberedAsset; numberedAsset]
        /\ render h s initialTimeline
           = AssetList [unnumberedAsset; numberedAsset] false false)
  /\ array_sort (sortAssetsDesc_zero h) [unnumberedAsset; numberedAsset]
     = [numberedAsset; unnumberedAsset]
  /\ array_sort (sortAssetsDesc h) [datedAsset; unstampedAsset]
     = [unstampedAsset; datedAsset]
  /\ cmp_popular h unstampedAsset datedAsset = NaN
  /\ filteredAssets h [unstampedAsset; datedAsset]
       (with_sortBy "popular" defaultFilters) = [unstampedAsset; datedAsset]
  /\ array_sort (cmp_popular_zero h) [unstampedAsset; datedAsset]
     = [datedAsset; unstampedAsset]
  /\ array_sort (sortAssetsDesc h) [datedAsset; unregisteredAsset]
     = [unregisteredAsset; datedAsset]
  /\ cmp_trending h unregisteredAsset datedAsset = NaN
  /\ filteredAssets h [unregisteredAsset; datedAsset]
       (with_sortBy "trending" defaultFilters)
     = [unregisteredAsset; datedAsset]
  /\ array_sort (cmp_trending_zero h) [unregisteredAsset; datedAsset]
     = [datedAsset; unregisteredAsset].
Proof.
  intros (He & Hjan & Hmar & Habc & H5).
  assert (Hok : host_ok h) by exact He.
  assert (Hcmp : sortAssetsDesc h unnumberedAsset numberedAsset = NaN).
  { rewrite (sortAssetsDesc_unfold h _ _ Hok).
    unfold effectiveTime, parsed, numericId; cbn. rewrite Hjan, Habc, H5.
    reflexivity. }
  assert (Hcmp' : sortAssetsDesc h numberedAsset unnumberedAsset = NaN).
  { rewrite (sortAssetsDesc_unfold h _ _ Hok).
    unfold effectiveTime, parsed, numericId; cbn. rewrite Hjan, Habc, H5.
    reflexivity. }
  assert (Hsort : array_sort (sortAssetsDesc h) [unnumberedAsset; numberedAsset]
                  = [unnumberedAsset; numberedAsset]).
  { cbn. rewrite Hcmp. reflexivity. }
  split; [exact Hcmp|]. split; [exact Hcmp'|]. split.
  { eexists. split; [reflexivity|].
    cbn [allAssets loadCollectionOnce_settle]. rewrite Hsort.
    split; reflexivity. }
  split.
  { cbn. unfold sortAssetsDesc_zero, numericIdOrZero, effectiveTime, parsed,
      numericId; cbn. rewrite Hjan, Habc, H5. reflexivity. }
  assert (Hhook1 : sortAssetsDesc h datedAsset unstampedAsset
                   = Num (1709251200000 - 1704067200000)).
  { rewrite (sortAssetsDesc_unfold h _ _ Hok).
    unfold effectiveTime, parsed; cbn. rewrite Hjan, Hmar. reflexivity. }
  assert (Hhook2 : sortAssetsDesc h datedAsset unregisteredAsset
                   = Num (1709251200000 - 1704067200000)).
  { rewrite (sortAssetsDesc_unfold h _ _ Hok).
    unfold effectiveTime, parsed; cbn. rewrite He, Hjan, Hmar. reflexivity. }
  assert (Hpop : cmp_popular h unstampedAsset datedAsset = NaN).
  { unfold cmp_popular, Date_getTime; cbn. rewrite He, Hjan. reflexivity. }
  assert (Htre : cmp_trending h unregisteredAsset datedAsset = NaN).
  { unfold cmp_trending, Date_getTime; cbn. rewrite He, Hjan. reflexivity. }
  split; [cbn; rewrite Hhook1; reflexivity|].
  split; [exact Hpop|].
  split.
  { change (filteredAssets h [unstampedAsset; datedAsset]
              (with_sortBy "popular" defaultFilters))
      with (array_sort (cmp_popular h) [unstampedAsset; datedAsset]).
    unfold array_sort. cbn [fold_right insert_sorted].
    rewrite Hpop. reflexivity. }
  split.
  { cbn. unfold cmp_popular_zero, timeOrZero, parsed; cbn.
    rewrite He, Hjan. reflexivity. }
  split; [cbn; rewrite Hhook2; reflexivity|].
  split; [exact Htre|].
  split.
  { change (filteredAssets h [unregisteredAsset; datedAsset]
              (with_sortBy "trending" defaultFilters))
      with (array_sort (cmp_trending h) [unregisteredAsset; datedAsset]).
    unfold array_sort. cbn [fold_right insert_sorted].
    rewrite Htre. reflexivity. }
  cbn. unfold cmp_trending_zero, timeOrZero, parsed; cbn.
  rewrite He, Hjan. reflexivity.
Qed.

Lemma unparsable_field_undefined_order_witness :
  engine_facts IsoHost.host
  /\ array_sort (sortAssetsDesc IsoHost.host) [unnumberedAsset; numberedAsset]
     <> array_sort (sortAssetsDesc_zero IsoHost.host)
          [unnumberedAsset; numberedAsset].
Proof.
  assert (Hf : engine_facts IsoHost.host) by (repeat split; reflexivity).
  split; [exact Hf|].
  destruct (unparsable_field_undefined_order IsoHost.host Hf)
    as (_ & _ & _ & Hzero & _).
  rewrite Hzero. vm_compute. discriminate.
Defined.

(** C9.  Two filter configurations that differ only in the date range and/or
    the price range give the same filtered and sorted list, hence the same
    visible page, for every asset list. *)
Theorem ranges_do_not_filter (h : Host) (assets : list AssetIP)
  (f g : FilterState) :
  same_but_ranges f g ->
  filteredAssets h assets f = filteredAssets h assets g
  /\ (forall page,
        paginatedAssets (filteredAssets h assets f) page
        = paginatedAssets (filteredAssets h assets g) page).
Proof.
  intros (Hs & Ha & Hl & Hv & Ho & Ht).
  assert (E : filteredAssets h assets f = filteredAssets h assets g).
  { destruct f, g; cbn in *; subst.
    unfold filteredAssets, matches_search, matches_type, matches_license,
      matches_tags; cbn. reflexivity. }
  split; [exact E|]. intros page. rewrite E. reflexivity.
Qed.

Lemma ranges_do_not_filter_witness :
  same_but_ranges catFilters
    (with_dateRange "week" (with_priceRange (5, 50) catFilters))
  /\ filteredAssets IsoHost.host [undatedAsset; datedAsset] catFilters
     = filteredAssets IsoHost.host [undatedAsset; datedAsset]
         (with_dateRange "week" (with_priceRange (5, 50) catFilters)).
Proof.
  split; [repeat split|].
  apply (ranges_do_not_filter IsoHost.host [undatedAsset; datedAsset] catFilters
           (with_dateRange "week" (with_priceRange (5, 50) catFilters))).
  repeat split.
Defined.

(** ** The filter chain as one predicate *)

Lemma filter_twice {A} (p q : A -> bool) (l : list A) :
  List.filter q (List.filter p l) = List.filter (fun x => p x && q x) l.
Proof.
  induction l as [|x l IH]; cbn; [reflexivity|].
  destruct (p x); cbn; [destruct (q x)|]; rewrite IH; reflexivity.
Qed.

Lemma filter_when {A} (c : bool) (p : A -> bool) (l : list A) :
  (if c then List.filter p l else l) = List.filter (fun x => negb c || p x) l.
Proof.
  destruct c; cbn; [reflexivity|].
  induction l as [|x l IH]; cbn; [reflexivity | rewrite <- IH; reflexivity].
Qed.

Lemma filteredAssets_chain (h : Host) (assets : list AssetIP) (f : FilterState) :
  filteredAssets h assets f =
    let kept := List.filter (passes h f) assets in
    if String.eqb (sortBy f) "alphabetical"
    then array_sort (cmp_alphabetical h) kept
    else if String.eqb (sortBy f) "popular"
    then array_sort (cmp_popular h) kept
    else if String.eqb (sortBy f) "trending"
    then array_sort (cmp_trending h) kept
    else kept.
Proof.
  unfold filteredAssets. cbn zeta.
  rewrite !filter_when, !filter_twice.
  rewrite (filter_ext _ (passes h f)); [reflexivity|].
  intros a. unfold passes. rewrite !andb_assoc. reflexivity.
Qed.

(** X1.  The five filters act as one conjunction: the result holds exactly
    the assets that pass every filter whose field is set, each as often as in
    the input.  In the modes that do not sort, the result is that selection in
    the input order. *)
Theorem filteredAssets_conjunction (h : Host) (assets : list AssetIP)
  (f : FilterState) :
  Permutation (filteredAssets h assets f) (List.filter (passes h f) assets)
  /\ (forall a, In a (filteredAssets h assets f)
                <-> In a assets /\ passes h f a = true)
  /\ (sorting_mode (sortBy f) = false ->
      filteredAssets h assets f = List.filter (passes h f) assets).
Proof.
  assert (P : Permutation (filteredAssets h assets f)
                (List.filter (passes h f) assets)).
  { rewrite filteredAssets_chain. cbn zeta.
    repeat match goal with
           | |- context [String.eqb ?a ?b] => destruct (String.eqb a b)
           end; auto using array_sort_Permutation. }
  split; [exact P|]. split.
  - intros a. rewrite <- filter_In. split; intros Hin.
    + eapply Permutation_in; [exact P | exact Hin].
    + eapply Permutation_in; [symmetry; exact P | exact Hin].
  - unfold sorting_mode. intros Hmode. rewrite filteredAssets_chain. cbn zeta.
    destruct (String.eqb (sortBy f) "alphabetical"); [discriminate|].
    destruct (String.eqb (sortBy f) "popular"); [discriminate|].
    destruct (String.eqb (sortBy f) "trending"); [discriminate|].
    reflexivity.
Qed.

Lemma filteredAssets_conjunction_witness :
  sorting_mode (sortBy catFilters) = false
  /\ filteredAssets IsoHost.host [undatedAsset; datedAsset] catFilters
     = List.filter (passes IsoHost.host catFilters) [undatedAsset; datedAsset].
Proof.
  split; [reflexivity|].
  apply (filteredAssets_conjunction IsoHost.host [undatedAsset; datedAsset]
           catFilters).
  reflexivity.
Defined.

(** X2.  With an empty search string, no asset type, license or tag selected
    and verified-only off, nothing is filtered out: the result is the input
    list itself in the modes that do not sort, and a rearrangement of it in
    the three sorting modes. *)
Theorem filteredAssets_no_filter (h : Host) (assets : list AssetIP)
  (f : FilterState) :
  search f = "" -> assetTypes f = [] -> licenses f = [] ->
  verifiedOnly f = false -> tags f = [] ->
  Permutation (filteredAssets h assets f) assets
  /\ List.length (filteredAssets h assets f) = List.length assets
  /\ (sorting_mode (sortBy f) = false -> filteredAssets h assets f = assets).
Proof.
  intros Hs Ha Hl Hv Ht.
  assert (E : List.filter (passes h f) assets = assets).
  { unfold passes. rewrite Hs, Ha, Hl, Hv, Ht. cbn.
    induction assets as [|x l IH]; cbn; [reflexivity | rewrite IH; reflexivity]. }
  assert (P : Permutation (filteredAssets h assets f) assets).
  { rewrite filteredAssets_chain, E. cbn zeta.
    repeat match goal with
           | |- context [String.eqb ?a ?b] => destruct (String.eqb a b)
           end; auto using array_sort_Permutation. }
  split; [exact P|]. split; [apply Permutation_length; exact P|].
  unfold sorting_mode. intros Hmode. rewrite filteredAssets_chain, E. cbn zeta.
  destruct (String.eqb (sortBy f) "alphabetical"); [discriminate|].
  destruct (String.eqb (sortBy f) "popular"); [discriminate|].
  destruct (String.eqb (sortBy f) "trending"); [discriminate|].
  reflexivity.
Qed.

Lemma filteredAssets_no_filter_witness :
  filteredAssets IsoHost.host [undatedAsset; datedAsset]
    (with_dateRange "week" defaultFilters) = [undatedAsset; datedAsset].
Proof.
  apply (filteredAssets_no_filter IsoHost.host [undatedAsset; datedAsset]
           (with_dateRange "week" defaultFilters)); reflexivity.
Defined.

(** ** Substrings and the search filter *)

Lemma prefix_nil (s : string) : String.prefix EmptyString s = true.
Proof. destruct s; reflexivity. Qed.

Lemma prefix_append (t post : string) :
  String.prefix t (String.append t post) = true.
Proof.
  induction t as [|c t IH]; [apply prefix_nil|].
  change (String.append (String c t) post) with (String c (String.append t post)).
  change (match ascii_dec c c with
          | left _ => String.prefix t (String.append t post)
          | right _ => false
          end = true).
  destruct (ascii_dec c c); [exact IH | contradiction].
Qed.

Lemma prefix_occurs (t s : string) :
  String.prefix t s = true -> exists post, s = String.append t post.
Proof.
  revert s. induction t as [|c t IH]; intros s Hp.
  - exists s. reflexivity.
  - destruct s as [|d s]; [discriminate|]. cbn in Hp.
    destruct (ascii_dec c d) as [<- | _]; [|discriminate].
    destruct (IH s Hp) as [post ->]. exists post. reflexivity.
Qed.

Lemma includes_unfold (s t : string) :
  includes s t =
    String.prefix t s
    || match s with EmptyString => false | String _ r => includes r t end.
Proof. destruct s; reflexivity. Qed.

Lemma includes_occurs (s t : string) :
  includes s t = true <-> occurs_in t s.
Proof.
  split.
  - induction s as [|c s IH]; rewrite includes_unfold; intros Hi.
    + rewrite orb_false_r in Hi. destruct (prefix_occurs _ _ Hi) as [post E].
      exists EmptyString, post. exact E.
    + apply orb_true_iff in Hi. destruct Hi as [Hp | Hr].
      * destruct (prefix_occurs _ _ Hp) as [post E].
        exists EmptyString, post. exact E.
      * destruct (IH Hr) as (pre & post & ->).
        exists (String c pre), post. reflexivity.
  - intros (pre & post & ->). induction pre as [|c pre IH].
    + change (includes (String.append t post) t = true).
      rewrite includes_unfold, prefix_append. reflexivity.
    + change (includes (String c (String.append pre (String.append t post))) t
              = true).
      rewrite includes_unfold, IH. apply orb_true_r.
Qed.

(** X3.  The search filter passes an asset exactly when the lower-cased
    search term occurs as a substring of the lower-cased title, description,
    creator name or tag string, lower-casing being the engine's
    [toLowerCase].  So a term found in the tag string alone passes the asset,
    and two search terms with the same lower-casing pass the same assets. *)
Theorem matches_search_substring (h : Host) (f : FilterState) (a : AssetIP) :
  (matches_search h f a = true
   <-> occurs_in (toLowerCase h (search f)) (toLowerCase h (Asset.title a))
       \/ occurs_in (toLowerCase h (search f))
                    (toLowerCase h (Asset.description a))
       \/ occurs_in (toLowerCase h (search f))
                    (toLowerCase h (Asset.name (Asset.creator a)))
       \/ occurs_in (toLowerCase h (search f))
                    (toLowerCase h (Asset.tags a)))
  /\ (occurs_in (toLowerCase h (search f)) (toLowerCase h (Asset.tags a)) ->
      matches_search h f a = true)
  /\ (forall g : FilterState,
        toLowerCase h (search g) = toLowerCase h (search f) ->
        matches_search h g a = matches_search h f a).
Proof.
  assert (Hiff : matches_search h f a = true
   <-> occurs_in (toLowerCase h (search f)) (toLowerCase h (Asset.title a))
       \/ occurs_in (toLowerCase h (search f))
                    (toLowerCase h (Asset.description a))
       \/ occurs_in (toLowerCase h (search f))
                    (toLowerCase h (Asset.name (Asset.creator a)))
       \/ occurs_in (toLowerCase h (search f))
                    (toLowerCase h (Asset.tags a))).
  { unfold matches_search. cbn zeta.
    rewrite !orb_true_iff, !includes_occurs. tauto. }
  split; [exact Hiff|]. split.
  - intros Hocc. apply Hiff. auto.
  - intros g Hg. unfold matches_search. cbn zeta. rewrite Hg. reflexivity.
Qed.

Lemma matches_search_substring_witness :
  occurs_in
    (toLowerCase IsoHost.host
       (search (mkFilters "PHOTO" [] [] false "all" "recent" [] (0, 100))))
    (toLowerCase IsoHost.host (Asset.tags datedAsset))
  /\ matches_search IsoHost.host
       (mkFilters "PHOTO" [] [] false "all" "recent" [] (0, 100)) datedAsset
     = true.
Proof.
  assert (Hocc : occurs_in
            (toLowerCase IsoHost.host
               (search (mkFilters "PHOTO" [] [] false "all" "recent" []
                          (0, 100))))
            (toLowerCase IsoHost.host (Asset.tags datedAsset)))
    by (exists "art, ", ""; reflexivity).
  split; [exact Hocc|].
  apply (proj1 (proj2 (matches_search_substring IsoHost.host
                         (mkFilters "PHOTO" [] [] false "all" "recent" []
                            (0, 100))
                         datedAsset))).
  exact Hocc.
Defined.

(** ** The published list is in descending timeline order *)

Lemma HdRel_insert_sorted {A} (cmp : A -> A -> number) (R : A -> A -> Prop)
  (y x : A) (l : list A) :
  HdRel R y l -> R y x -> HdRel R y (insert_sorted cmp x l).
Proof.
  intros Hhd Hyx. destruct l as [|z l]; cbn; [constructor; exact Hyx|].
  destruct (gt0 (cmp x z)); constructor;
    [inversion Hhd; assumption | exact Hyx].
Qed.

Lemma insert_sorted_Sorted {A} (cmp : A -> A -> number) (R : A -> A -> Prop)
  (P : A -> Prop) :
  (forall x y, P x -> P y -> gt0 (cmp x y) = false -> R x y) ->
  (forall x y, P x -> P y -> gt0 (cmp x y) = true -> R y x) ->
  forall x l, P x -> Forall P l -> Sorted R l ->
              Sorted R (insert_sorted cmp x l).
Proof.
  intros Hle Hgt x l Px. induction l as [|y l IH]; intros HP Hs; cbn.
  - repeat constructor.
  - inversion HP as [|? ? Py HPl]; subst. inversion Hs as [|? ? Hsl Hhd]; subst.
    destruct (gt0 (cmp x y)) eqn:E.
    + constructor; [apply IH; assumption|].
      apply HdRel_insert_sorted; [exact Hhd | apply Hgt; assumption].
    + constructor; [exact Hs|]. constructor. apply Hle; assumption.
Qed.

Lemma array_sort_Sorted {A} (cmp : A -> A -> number) (R : A -> A -> Prop)
  (P : A -> Prop) :
  (forall x y, P x -> P y -> gt0 (cmp x y) = false -> R x y) ->
  (forall x y, P x -> P y -> gt0 (cmp x y) = true -> R y x) ->
  forall l, Forall P l -> Sorted R (array_sort cmp l).
Proof.
  intros Hle Hgt l. induction l as [|x l IH]; intros HP; cbn.
  - constructor.
  - inversion HP as [|? ? Px HPl]; subst.
    apply (insert_sorted_Sorted cmp R P Hle Hgt); [exact Px | | apply IH, HPl].
    eapply Permutation_Forall; [symmetry; apply array_sort_Permutation|].
    exact HPl.
Qed.

Lemma sortAssetsDesc_le (h : Host) (x y : AssetIP) :
  host_ok h -> numericIdOk h x -> numericIdOk h y ->
  gt0 (sortAssetsDesc h x y) = false -> timeline_desc h x y.
Proof.
  intros Hok [i Hi] [j Hj]. rewrite (sortAssetsDesc_unfold h x y Hok), Hi, Hj.
  unfold timeline_desc.
  destruct (Z.eqb_spec (effectiveTime h y) (effectiveTime h x)) as [E | N];
    cbn; intros Hc.
  - right. split; [congruence|]. exists i, j. repeat split; try assumption. lia.
  - left. lia.
Qed.

Lemma sortAssetsDesc_gt (h : Host) (x y : AssetIP) :
  host_ok h -> numericIdOk h x -> numericIdOk h y ->
  gt0 (sortAssetsDesc h x y) = true -> timeline_desc h y x.
Proof.
  intros Hok [i Hi] [j Hj]. rewrite (sortAssetsDesc_unfold h x y Hok), Hi, Hj.
  unfold timeline_desc.
  destruct (Z.eqb_spec (effectiveTime h y) (effectiveTime h x)) as [E | N];
    cbn; intros Hc.
  - right. split; [congruence|]. exists j, i. repeat split; try assumption. lia.
  - left. lia.
Qed.

Lemma timeline_desc_trans (h : Host) (x y z : AssetIP) :
  timeline_desc h x y -> timeline_desc h y z -> timeline_desc h x z.
Proof.
  unfold timeline_desc.
  intros [Hxy | (Exy & i & j & Hi & Hj & Hji)]
         [Hyz | (Eyz & j' & k & Hj' & Hk & Hkj)].
  - left. lia.
  - left. lia.
  - left. lia.
  - right. split; [congruence|]. exists i, k.
    rewrite Hj in Hj'. injection Hj' as <-.
    repeat split; try assumption. lia.
Qed.

(** X4.  On success the loader publishes a rearrangement of the fetched
    list, nothing lost and nothing added.  When every fetched asset has a
    numeric identifier, each published asset stands before all the assets that
    are older, or of the same time with an identifier not larger. *)
Theorem published_assets_sorted (h : Host) (assets : list AssetIP)
  (s : LoaderState) :
  Permutation (allAssets (loadCollectionOnce_settle h (Resolved assets) s))
              assets
  /\ (host_ok h -> Forall (numericIdOk h) assets ->
      StronglySorted (timeline_desc h)
        (allAssets (loadCollectionOnce_settle h (Resolved assets) s))).
Proof.
  cbn. split; [apply array_sort_Permutation|].
  intros Hok Hids. apply Sorted_StronglySorted.
  - intros x y z. apply timeline_desc_trans.
  - apply (array_sort_Sorted (sortAssetsDesc h) (timeline_desc h)
             (numericIdOk h)); [| |exact Hids].
    + intros x y Px Py. apply sortAssetsDesc_le; assumption.
    + intros x y Px Py. apply sortAssetsDesc_gt; assumption.
Qed.

Lemma published_assets_sorted_witness :
  host_ok IsoHost.host
  /\ Forall (numericIdOk IsoHost.host) [undatedAsset; datedAsset]
  /\ StronglySorted (timeline_desc IsoHost.host)
       (allAssets (loadCollectionOnce_settle IsoHost.host
                     (Resolved [undatedAsset; datedAsset]) initialLoader)).
Proof.
  assert (Hids : Forall (numericIdOk IsoHost.host) [undatedAsset; datedAsset]).
  { repeat constructor; [exists 1 | exists 2]; reflexivity. }
  split; [reflexivity|]. split; [exact Hids|].
  apply (proj2 (published_assets_sorted IsoHost.host
                  [undatedAsset; datedAsset] initialLoader));
    [reflexivity | exact Hids].
Defined.

(** X5.  Swapping the two arguments of the comparator negates its result.
    An asset compared with itself gives 0 when its identifier is numeric and
    [NaN] when it is not. *)
Theorem sortAssetsDesc_antisymmetric (h : Host) (a b : AssetIP) :
  host_ok h ->
  sortAssetsDesc h b a = num_neg (sortAssetsDesc h a b)
  /\ (numericIdOk h a -> sortAssetsDesc h a a = Num 0)
  /\ (numericId h a = NaN -> sortAssetsDesc h a a = NaN).
Proof.
  intros Hok. rewrite !(sortAssetsDesc_unfold h) by exact Hok.
  rewrite Z.eqb_refl, (Z.eqb_sym (effectiveTime h a) (effectiveTime h b)).
  split; [|split].
  - destruct (effectiveTime h b =? effectiveTime h a).
    + destruct (numericId h a), (numericId h b); cbn; try reflexivity.
      f_equal. lia.
    + cbn. f_equal. lia.
  - intros [i ->]. cbn. f_equal. lia.
  - intros ->. reflexivity.
Qed.

Lemma sortAssetsDesc_antisymmetric_witness :
  host_ok IsoHost.host
  /\ sortAssetsDesc IsoHost.host datedAsset undatedAsset
     = num_neg (sortAssetsDesc IsoHost.host undatedAsset datedAsset).
Proof.
  split; [reflexivity|].
  apply (sortAssetsDesc_antisymmetric IsoHost.host undatedAsset datedAsset).
  reflexivity.
Defined.

(** ** Invariants of the loader *)

Lemma loader_inv_loadCollectionOnce (s : LoaderState) :
  loader_inv s -> loader_inv (loadCollectionOnce s).
Proof.
  intros Hinv. destruct (fetchedRef s) eqn:Hf.
  - rewrite (loadCollectionOnce_fetched s Hf). exact Hinv.
  - destruct Hinv as (Hle & Hun & Hld).
    unfold loadCollectionOnce, loader_inv. rewrite Hf. cbn.
    split; [lia|]. split; [intros _; apply Hun, Hf | intros _; lia].
Qed.

Lemma loader_inv_step (h : Host) (ev : Event) (s s' : LoaderState) :
  loader_inv s -> step h ev s = Some s' -> loader_inv s'.
Proof.
  intros Hinv Hstep. destruct ev as [| |r]; cbn in Hstep.
  - injection Hstep as <-. apply loader_inv_loadCollectionOnce, Hinv.
  - injection Hstep as <-. apply loader_inv_loadCollectionOnce, Hinv.
  - destruct Hinv as (Hle & Hun & Hld).
    destruct (inFlight s) as [|n] eqn:Hn; [discriminate|].
    injection Hstep as <-. unfold loader_inv.
    destruct r; cbn; rewrite Hn; cbn.
    + split; [lia|]. split; discriminate.
    + split; [lia|]. split; [reflexivity | discriminate].
Qed.

Lemma loader_inv_run (h : Host) (evs : list Event) :
  forall s s', loader_inv s -> run h evs s = Some s' -> loader_inv s'.
Proof.
  induction evs as [|ev evs IH]; intros s s' Hinv Hrun; cbn in Hrun.
  - injection Hrun as <-. exact Hinv.
  - destruct (step h ev s) as [s1|] eqn:Hstep; [|discriminate].
    apply (IH s1 s'); [eapply loader_inv_step; eassumption | exact Hrun].
Qed.

(** X6.  In every state of a mount lifecycle: no more fetches are pending
    than were requested; as long as no fetch has succeeded the published list
    is empty; and [isLoading] is true only while a fetch is pending.  The
    converse of the last fails: with two fetches started, after the first has
    settled one is still pending and [isLoading] is false. *)
Theorem loader_invariants (h : Host) :
  (forall s, reachable h s ->
     (inFlight s <= requests s)%nat
     /\ (fetchedRef s = false -> allAssets s = [])
     /\ (isLoading s = true -> (1 <= inFlight s)%nat))
  /\ (forall e, exists s,
        run h [Activate; Refetch; Settle (Rejected e)] initialLoader = Some s
        /\ inFlight s = 1%nat /\ isLoading s = false).
Proof.
  split.
  - intros s [evs Hrun]. apply (loader_inv_run h evs initialLoader s).
    + split; [cbn; lia|]. split; [reflexivity | discriminate].
    + exact Hrun.
  - intros e. eexists. split; [reflexivity|]. split; reflexivity.
Qed.

Lemma loader_invariants_witness :
  reachable IsoHost.host
    (loadCollectionOnce_settle IsoHost.host (Rejected networkDown)
       (loadCollectionOnce initialLoader))
  /\ allAssets (loadCollectionOnce_settle IsoHost.host (Rejected networkDown)
                 (loadCollectionOnce initialLoader)) = [].
Proof.
  assert (Hr : reachable IsoHost.host
                 (loadCollectionOnce_settle IsoHost.host (Rejected networkDown)
                    (loadCollectionOnce initialLoader))).
  { exists [Activate; Settle (Rejected networkDown)]. reflexivity. }
  split; [exact Hr|].
  apply (proj1 (loader_invariants IsoHost.host) _ Hr). reflexivity.
Defined.

Lemma run_triggers_fetched (h : Host) (evs : list Event) (s : LoaderState) :
  fetchedRef s = true -> Forall is_trigger evs -> run h evs s = Some s.
Proof.
  intros Hf Hall. induction Hall as [|ev evs Hev _ IH]; [reflexivity|].
  cbn. destruct Hev as [-> | ->]; cbn; unfold refetch;
    rewrite (loadCollectionOnce_fetched s Hf); exact IH.
Qed.

(** X7.  A failure that arrives after another fetch has succeeded empties the
    published list and sets the error while the one-shot flag stays set, so
    from then on no activation and no [refetch] changes anything: the list
    stays empty.  Such a state is reached by two overlapping fetches of which
    the first succeeds and the second fails. *)
Theorem late_failure_is_permanent (h : Host) (s : LoaderState) (e : Thrown) :
  fetchedRef s = true ->
  allAssets (loadCollectionOnce_settle h (Rejected e) s) = []
  /\ error (loadCollectionOnce_settle h (Rejected e) s) = Some (errorMessage e)
  /\ (forall evs, Forall is_trigger evs ->
        run h evs (loadCollectionOnce_settle h (Rejected e) s)
        = Some (loadCollectionOnce_settle h (Rejected e) s))
  /\ (forall assets,
        exists s1,
          run h [Activate; Refetch; Settle (Resolved assets)] initialLoader
          = Some s1
          /\ fetchedRef s1 = true /\ inFlight s1 = 1%nat
          /\ allAssets s1 = array_sort (sortAssetsDesc h) assets).
Proof.
  intros Hf. split; [reflexivity|]. split; [reflexivity|]. split.
  - intros evs Hall. apply run_triggers_fetched; [exact Hf | exact Hall].
  - intros assets. eexists. split; [reflexivity|]. repeat split.
Qed.

Lemma late_failure_is_permanent_witness :
  fetchedRef (loadCollectionOnce_settle IsoHost.host (Resolved [datedAsset])
                (refetch (loadCollectionOnce initialLoader))) = true
  /\ run IsoHost.host [Refetch; Activate]
       (loadCollectionOnce_settle IsoHost.host (Rejected networkDown)
          (loadCollectionOnce_settle IsoHost.host (Resolved [datedAsset])
             (refetch (loadCollectionOnce initialLoader))))
     = Some (loadCollectionOnce_settle IsoHost.host (Rejected networkDown)
               (loadCollectionOnce_settle IsoHost.host (Resolved [datedAsset])
                  (refetch (loadCollectionOnce initialLoader)))).
Proof.
  split; [reflexivity|].
  apply (late_failure_is_permanent IsoHost.host
           (loadCollectionOnce_settle IsoHost.host (Resolved [datedAsset])
              (refetch (loadCollectionOnce initialLoader)))
           networkDown eq_refl).
  constructor; [right; reflexivity|].
  constructor; [left; reflexivity|]. constructor.
Defined.

(** ** The handlers that edit the filters *)

Lemma In_without (v t : string) (l : list string) :
  In t (without (Some v) l) <-> In t l /\ t <> v.
Proof.
  unfold without. rewrite filter_In.
  destruct (String.eqb_spec t v) as [E | N]; cbn; intuition congruence.
Qed.

Lemma without_None (l : list string) : without None l = l.
Proof.
  unfold without. induction l as [|x l IH]; cbn; [reflexivity|].
  rewrite IH. reflexivity.
Qed.

Lemma without_absent (v : string) (l : list string) :
  ~ In v l -> without (Some v) l = l.
Proof.
  unfold without. induction l as [|x l IH]; cbn; intros Hout; [reflexivity|].
  destruct (String.eqb_spec x v) as [E | N]; cbn.
  - exfalso. apply Hout. left. exact E.
  - rewrite IH; [reflexivity | intros Hin; apply Hout; right; exact Hin].
Qed.

Lemma without_length (value : option string) (l : list string) :
  (List.length (without value l) <= List.length l)%nat.
Proof.
  unfold without. induction l as [|x l IH]; cbn; [lia|].
  match goal with |- context [if ?c then _ else _] => destruct c end; cbn; lia.
Qed.

Lemma without_length_lt (v : string) (l : list string) :
  In v l -> (List.length (without (Some v) l) < List.length l)%nat.
Proof.
  induction l as [|x l IH]; cbn; intros Hin; [contradiction|].
  pose proof (without_length (Some v) l) as Hle. unfold without in *.
  destruct (String.eqb_spec x v) as [E | N]; cbn; [lia|].
  destruct Hin as [E | Hin]; [contradiction|]. specialize (IH Hin). lia.
Qed.

Lemma setFiltersWith_fresh (upd : FilterState -> FilterState)
  (st : TimelineState) :
  (ident (filters st) < fresh st)%nat ->
  filters (setFiltersWith upd st)
    = {| ident := fresh st; config := upd (config (filters st)) |}
  /\ expandedAssets (setFiltersWith upd st) = expandedAssets st
  /\ isPaging (setFiltersWith upd st) = isPaging st
  /\ fresh (setFiltersWith upd st) = S (fresh st).
Proof.
  intros Hlt. unfold setFiltersWith, setFilters, Object_is. cbn.
  destruct (Nat.eqb_spec (fresh st) (ident (filters st))); [lia|].
  repeat split.
Qed.

(** The five cases of [removeFilter], one at a time. *)
Lemma removeFilter_search (value : option string) (st : TimelineState) :
  removeFilter "search" value st =
    setFiltersWith (fun prev =>
      {| search := ""; assetTypes := assetTypes prev; licenses := licenses prev;
         verifiedOnly := verifiedOnly prev; dateRange := dateRange prev;
         sortBy := sortBy prev; tags := tags prev;
         priceRange := priceRange prev |}) st.
Proof. reflexivity. Qed.

Lemma removeFilter_assetType (value : option string) (st : TimelineState) :
  removeFilter "assetType" value st =
    setFiltersWith (fun prev =>
      {| search := search prev; assetTypes := without value (assetTypes prev);
         licenses := licenses prev; verifiedOnly := verifiedOnly prev;
         dateRange := dateRange prev; sortBy := sortBy prev; tags := tags prev;
         priceRange := priceRange prev |}) st.
Proof. reflexivity. Qed.

Lemma removeFilter_license (value : option string) (st : TimelineState) :
  removeFilter "license" value st =
    setFiltersWith (fun prev =>
      {| search := search prev; assetTypes := assetTypes prev;
         licenses := without value (licenses prev);
         verifiedOnly := verifiedOnly prev; dateRange := dateRange prev;
         sortBy := sortBy prev; tags := tags prev;
         priceRange := priceRange prev |}) st.
Proof. reflexivity. Qed.

Lemma removeFilter_verified (value : option string) (st : TimelineState) :
  removeFilter "verified" value st =
    setFiltersWith (fun prev =>
      {| search := search prev; assetTypes := assetTypes prev;
         licenses := licenses prev; verifiedOnly := false;
         dateRange := dateRange prev; sortBy := sortBy prev; tags := tags prev;
         priceRange := priceRange prev |}) st.
Proof. reflexivity. Qed.

Lemma removeFilter_tag (value : option string) (st : TimelineState) :
  removeFilter "tag" value st =
    setFiltersWith (fun prev =>
      {| search := search prev; assetTypes := assetTypes prev;
         licenses := licenses prev; verifiedOnly := verifiedOnly prev;
         dateRange := dateRange prev; sortBy := sortBy prev;
         tags := without value (tags prev);
         priceRange := priceRange prev |}) st.
Proof. reflexivity. Qed.

Lemma removeFilter_unknown (kind : string) (value : option string)
  (st : TimelineState) :
  known_kind kind = false -> removeFilter kind value st = st.
Proof.
  unfold known_kind, removeFilter. intros Hk.
  repeat (apply orb_false_iff in Hk; destruct Hk as [Hk ?]).
  repeat match goal with H : String.eqb _ _ = false |- _ => rewrite H; clear H end.
  reflexivity.
Qed.

Lemma known_kind_cases (kind : string) :
  known_kind kind = true ->
  kind = "search" \/ kind = "assetType" \/ kind = "license"
  \/ kind = "verified" \/ kind = "tag".
Proof.
  unfold known_kind. rewrite !orb_true_iff, !String.eqb_eq. tauto.
Qed.

Ltac after_setFiltersWith st Hlt :=
  match goal with
  | |- context [setFiltersWith ?upd st] =>
      let Hf := fresh "Hf" in
      let He := fresh "He" in
      destruct (setFiltersWith_fresh upd st Hlt) as (Hf & He & _ & _);
      rewrite ?Hf, ?He; cbn
  end.

Ltac split_fields :=
  repeat (intros; try subst;
          match goal with
          | |- _ /\ _ => split
          | |- _ <-> _ => apply In_without
          end).

(** X8.  [removeFilter] touches only the field it names: the search string
    is cleared, verified-only is switched off, or the given value is taken out
    of the asset types, licenses or tags (every occurrence of it, the other
    selected values staying), and every other field of the configuration, the
    date range, sort mode and price range included, and the expansion set are
    left as they were. *)
Theorem removeFilter_own_field (kind : string) (value : option string)
  (st : TimelineState) :
  (ident (filters st) < fresh st)%nat ->
  let f := config (filters st) in
  let g := config (filters (removeFilter kind value st)) in
  others_kept kind f g
  /\ (kind = "search" -> search g = "")
  /\ (kind = "verified" -> verifiedOnly g = false)
  /\ (forall v, value = Some v ->
        (kind = "assetType" -> removed v (assetTypes f) (assetTypes g))
        /\ (kind = "license" -> removed v (licenses f) (licenses g))
        /\ (kind = "tag" -> removed v (tags f) (tags g)))
  /\ expandedAssets (removeFilter kind value st) = expandedAssets st.
Proof.
  intros Hlt. cbn zeta. unfold others_kept, removed.
  destruct (known_kind kind) eqn:Hk.
  - destruct (known_kind_cases kind Hk) as [-> | [-> | [-> | [-> | ->]]]].
    + rewrite removeFilter_search. after_setFiltersWith st Hlt.
      split_fields; first [reflexivity | congruence].
    + rewrite removeFilter_assetType. after_setFiltersWith st Hlt.
      split_fields; first [reflexivity | congruence].
    + rewrite removeFilter_license. after_setFiltersWith st Hlt.
      split_fields; first [reflexivity | congruence].
    + rewrite removeFilter_verified. after_setFiltersWith st Hlt.
      split_fields; first [reflexivity | congruence].
    + rewrite removeFilter_tag. after_setFiltersWith st Hlt.
      split_fields; first [reflexivity | congruence].
  - rewrite (removeFilter_unknown kind value st Hk).
    split_fields;
      first [reflexivity
            | intros E; rewrite E in Hk; vm_compute in Hk; discriminate Hk].
Qed.

Lemma removeFilter_own_field_witness :
  (ident (filters taggedTimeline) < fresh taggedTimeline)%nat
  /\ removed "art" (tags (config (filters taggedTimeline)))
       (tags (config (filters (removeFilter "tag" (Some "art") taggedTimeline)))).
Proof.
  assert (Hlt : (ident (filters taggedTimeline) < fresh taggedTimeline)%nat)
    by (cbn; lia).
  split; [exact Hlt|].
  pose proof (removeFilter_own_field "tag" (Some "art") taggedTimeline Hlt)
    as (_ & _ & _ & Hrem & _).
  apply (Hrem "art"); reflexivity.
Defined.

Lemma setFiltersWith_new_object (upd : FilterState -> FilterState)
  (st : TimelineState) :
  (ident (filters st) < fresh st)%nat ->
  paginationReset (setFiltersWith upd st)
  /\ ident (filters (setFiltersWith upd st)) = fresh st
  /\ config (filters (setFiltersWith upd st)) = upd (config (filters st)).
Proof.
  intros Hlt.
  destruct (setFiltersWith_resets upd st Hlt) as (Hc & Hp & Hm).
  destruct (setFiltersWith_fresh upd st Hlt) as (Hf & _).
  split; [split; assumption|]. split; [rewrite Hf; reflexivity | exact Hc].
Qed.

Lemma FilterState_eta (f : FilterState) :
  {| search := search f; assetTypes := assetTypes f; licenses := licenses f;
     verifiedOnly := verifiedOnly f; dateRange := dateRange f;
     sortBy := sortBy f; tags := tags f; priceRange := priceRange f |} = f.
Proof. destruct f; reflexivity. Qed.

(** X9.  [removeFilter] with a kind it does not recognise changes nothing.
    With a recognised kind it always installs a new configuration object, so
    the pagination goes back to page 1 with [hasMore] true even when nothing
    was removed: taking out a tag that is not selected leaves the
    configuration as it was and still resets the pagination. *)
Theorem removeFilter_rerenders (kind : string) (value : option string)
  (st : TimelineState) :
  (ident (filters st) < fresh st)%nat ->
  (known_kind kind = false -> removeFilter kind value st = st)
  /\ (known_kind kind = true ->
      paginationReset (removeFilter kind value st)
      /\ ident (filters (removeFilter kind value st)) = fresh st)
  /\ (forall v, ~ In v (tags (config (filters st))) ->
        config (filters (removeFilter "tag" (Some v) st)) = config (filters st)
        /\ paginationReset (removeFilter "tag" (Some v) st)).
Proof.
  intros Hlt. split; [apply removeFilter_unknown|]. split.
  - intros Hk.
    destruct (known_kind_cases kind Hk) as [-> | [-> | [-> | [-> | ->]]]];
      [ rewrite removeFilter_search | rewrite removeFilter_assetType
      | rewrite removeFilter_license | rewrite removeFilter_verified
      | rewrite removeFilter_tag ];
      match goal with
      | |- context [setFiltersWith ?upd st] =>
          destruct (setFiltersWith_new_object upd st Hlt) as (Hr & Hi & _)
      end; split; assumption.
  - intros v Hout. rewrite removeFilter_tag.
    match goal with
    | |- context [setFiltersWith ?upd st] =>
        destruct (setFiltersWith_new_object upd st Hlt) as (Hr & _ & Hc)
    end.
    split; [|exact Hr]. rewrite Hc, (without_absent v _ Hout).
    apply FilterState_eta.
Qed.

Lemma removeFilter_rerenders_witness :
  (ident (filters taggedTimeline) < fresh taggedTimeline)%nat
  /\ ~ In "music" (tags (config (filters taggedTimeline)))
  /\ config (filters (removeFilter "tag" (Some "music") taggedTimeline))
     = config (filters taggedTimeline)
  /\ currentPage taggedTimeline = 3
  /\ paginationReset (removeFilter "tag" (Some "music") taggedTimeline).
Proof.
  assert (Hlt : (ident (filters taggedTimeline) < fresh taggedTimeline)%nat)
    by (cbn; lia).
  assert (Hout : ~ In "music" (tags (config (filters taggedTimeline)))).
  { cbn. intros [E | [E | []]]; discriminate E. }
  split; [exact Hlt|]. split; [exact Hout|].
  pose proof (removeFilter_rerenders "tag" (Some "music") taggedTimeline Hlt)
    as (_ & _ & Habsent).
  destruct (Habsent "music" Hout) as [Hc Hr].
  split; [exact Hc|]. split; [reflexivity | exact Hr].
Defined.

(** X10.  [clearFilters] does nothing at all, the pagination included, when
    the component already holds the constant default object.  Otherwise it
    installs the default configuration, whose active filter count is 0, resets
    the pagination and leaves the expansion set and the in-flight flag alone.
    Clearing twice is the same as clearing once. *)
Theorem clearFilters_behaviour (st : TimelineState) :
  (ident (filters st) = 0%nat -> clearFilters st = st)
  /\ (ident (filters st) <> 0%nat ->
      filters (clearFilters st) = defaultFiltersObj
      /\ paginationReset (clearFilters st)
      /\ activeFilterCount (config (filters (clearFilters st))) = VNum (Num 0)
      /\ expandedAssets (clearFilters st) = expandedAssets st
      /\ isPaging (clearFilters st) = isPaging st)
  /\ clearFilters (clearFilters st) = clearFilters st.
Proof.
  unfold clearFilters, setFilters, Object_is. cbn [ident defaultFiltersObj].
  destruct (Nat.eqb_spec 0 (ident (filters st))) as [E | N].
  - split; [reflexivity|]. split; [intros N; congruence|].
    destruct (Nat.eqb_spec 0 (ident (filters st))); [reflexivity | contradiction].
  - split; [intros E; congruence|]. split.
    + intros _. cbn. repeat split.
    + reflexivity.
Qed.

Lemma clearFilters_behaviour_witness :
  ident (filters scrolledTimeline) = 0%nat
  /\ currentPage (clearFilters scrolledTimeline) = 3
  /\ ident (filters taggedTimeline) <> 0%nat
  /\ paginationReset (clearFilters taggedTimeline).
Proof.
  split; [reflexivity|]. split.
  - rewrite (proj1 (clearFilters_behaviour scrolledTimeline) eq_refl).
    reflexivity.
  - split; [discriminate|].
    apply (proj1 (proj2 (clearFilters_behaviour taggedTimeline))).
    discriminate.
Defined.

Lemma activeFilterCount_value (f : FilterState) :
  activeFilterCount f = VNum (Num (activeFilterCount_spec f)).
Proof.
  unfold activeFilterCount, str_ne.
  rewrite (reduce_contributions _
             [ indicator (negb (String.eqb (search f) ""));
               count (assetTypes f); count (licenses f);
               indicator (verifiedOnly f);
               indicator (negb (String.eqb (dateRange f) "all"));
               indicator (negb (String.eqb (sortBy f) "recent"));
               count (tags f) ]).
  - apply VNum_Num_eq. unfold activeFilterCount_spec, total.
    cbn [fold_right]. lia.
  - constructor; [exact (contributes_and_string _)|].
    constructor; [exact (contributes_length _)|].
    constructor; [exact (contributes_length _)|].
    constructor; [exact (contributes_and_bool _)|].
    constructor; [exact (contributes_and_bool _)|].
    constructor; [exact (contributes_and_bool _)|].
    constructor; [exact (contributes_length _)|].
    constructor.
Qed.

Lemma indicator_bounds (b : bool) : 0 <= indicator b <= 1.
Proof. destruct b; cbn; lia. Qed.

(** X11.  [removeFilter] never raises the active filter count, and taking
    out a tag, asset type or license that is selected lowers it by at least
    one. *)
Theorem removeFilter_count (kind : string) (value : option string)
  (st : TimelineState) :
  (ident (filters st) < fresh st)%nat ->
  exists m n,
    activeFilterCount (config (filters (removeFilter kind value st)))
      = VNum (Num m)
    /\ activeFilterCount (config (filters st)) = VNum (Num n)
    /\ 0 <= m <= n
    /\ (forall v, value = Some v ->
          (kind = "tag" /\ In v (tags (config (filters st))))
          \/ (kind = "assetType" /\ In v (assetTypes (config (filters st))))
          \/ (kind = "license" /\ In v (licenses (config (filters st)))) ->
          m < n).
Proof.
  intros Hlt.
  exists (activeFilterCount_spec (config (filters (removeFilter kind value st)))),
         (activeFilterCount_spec (config (filters st))).
  split; [apply activeFilterCount_value|].
  split; [apply activeFilterCount_value|].
  set (f := config (filters st)).
  pose proof (indicator_bounds (negb (String.eqb (search f) ""))) as Bs.
  pose proof (indicator_bounds (verifiedOnly f)) as Bv.
  pose proof (indicator_bounds (negb (String.eqb (dateRange f) "all"))) as Bd.
  pose proof (indicator_bounds (negb (String.eqb (sortBy f) "recent"))) as Bo.
  pose proof (without_length value (assetTypes f)) as La.
  pose proof (without_length value (licenses f)) as Ll.
  pose proof (without_length value (tags f)) as Lt.
  destruct (known_kind kind) eqn:Hk.
  - destruct (known_kind_cases kind Hk) as [-> | [-> | [-> | [-> | ->]]]];
      [ rewrite removeFilter_search | rewrite removeFilter_assetType
      | rewrite removeFilter_license | rewrite removeFilter_verified
      | rewrite removeFilter_tag ];
      match goal with
      | |- context [setFiltersWith ?upd st] =>
          destruct (setFiltersWith_fresh upd st Hlt) as (Hf & _); rewrite Hf
      end; cbn [config]; fold f;
      unfold activeFilterCount_spec, count; cbn -[Z.add Z.of_nat indicator without];
      (split; [cbn [indicator]; lia|]);
      intros v -> [[E Hin] | [[E Hin] | [E Hin]]]; try discriminate E;
      first [ pose proof (without_length_lt v _ Hin); lia ].
  - rewrite (removeFilter_unknown kind value st Hk). fold f.
    unfold activeFilterCount_spec, count.
    split; [lia|].
    intros v _ [[E _] | [[E _] | [E _]]];
      rewrite E in Hk; vm_compute in Hk; discriminate Hk.
Qed.

Lemma removeFilter_count_witness :
  (ident (filters taggedTimeline) < fresh taggedTimeline)%nat
  /\ exists m n,
       activeFilterCount
         (config (filters (removeFilter "tag" (Some "art") taggedTimeline)))
         = VNum (Num m)
       /\ activeFilterCount (config (filters taggedTimeline)) = VNum (Num n)
       /\ m < n.
Proof.
  assert (Hlt : (ident (filters taggedTimeline) < fresh taggedTimeline)%nat)
    by (cbn; lia).
  split; [exact Hlt|].
  destruct (removeFilter_count "tag" (Some "art") taggedTimeline Hlt)
    as (m & n & Hm & Hn & _ & Hless).
  exists m, n. split; [exact Hm|]. split; [exact Hn|].
  apply (Hless "art" eq_refl). left. split; [reflexivity|]. left. reflexivity.
Defined.

(** ** Scrolling to the end *)

Lemma loadMoreTimes_blocked (filtered : list AssetIP) (k : nat)
  (st : TimelineState) :
  isPaging st = true \/ hasMore st = false ->
  loadMoreTimes filtered k st = st.
Proof.
  intros Hb. induction k as [|k IH]; cbn; [reflexivity|].
  rewrite (proj2 (loadMore_blocked filtered st Hb)). exact IH.
Qed.

Lemma loadMoreTimes_exhausts (filtered : list AssetIP) (k : nat) :
  forall st,
    isPaging st = false ->
    (hasMore st = false -> count filtered <= currentPage st * 10) ->
    count filtered <= (currentPage st + Z.of_nat k) * 10 ->
    hasMore (loadMoreTimes filtered (S k) st) = false
    /\ isPaging (loadMoreTimes filtered (S k) st) = false
    /\ count filtered <= currentPage (loadMoreTimes filtered (S k) st) * 10
    /\ currentPage st <= currentPage (loadMoreTimes filtered (S k) st).
Proof.
  induction k as [|k IH]; intros st Hp Hdone Hfuel.
  - cbn [loadMoreTimes]. destruct (hasMore st) eqn:Hm.
    + rewrite (loadMore_free filtered st Hp Hm).
      destruct (Z.leb_spec (count filtered) (currentPage st * 10)); [|lia].
      cbn. repeat split; try assumption; lia.
    + rewrite (proj2 (loadMore_blocked filtered st (or_intror Hm))).
      repeat split; auto; lia.
  - change (loadMoreTimes filtered (S (S k)) st)
      with (loadMoreTimes filtered (S k) (loadMore filtered st)).
    destruct (hasMore st) eqn:Hm.
    + rewrite (loadMore_free filtered st Hp Hm).
      destruct (Z.leb_spec (count filtered) (currentPage st * 10)) as [Hle | Hgt].
      * rewrite loadMoreTimes_blocked by (right; reflexivity).
        cbn. repeat split; try assumption; lia.
      * destruct (IH (setCurrentPage (currentPage st + 1) st))
          as (H1 & H2 & H3 & H4); cbn; try assumption; try lia.
        -- rewrite Hm. discriminate.
        -- cbn in H4. repeat split; try assumption; lia.
    + rewrite (proj2 (loadMore_blocked filtered st (or_intror Hm))).
      rewrite loadMoreTimes_blocked by (right; exact Hm).
      repeat split; auto; lia.
Qed.

(** X12.  From page 1, one more advance than a tenth of the filtered count
    (rounded down) shows every filtered item and leaves [hasMore] false with
    no advance in flight; any number of further advances then changes
    nothing. *)
Theorem scrolling_reveals_all (filtered : list AssetIP) (st : TimelineState) :
  currentPage st = 1 -> isPaging st = false -> hasMore st = true ->
  hasMore (loadMoreTimes filtered (S (List.length filtered / 10)) st) = false
  /\ isPaging (loadMoreTimes filtered (S (List.length filtered / 10)) st) = false
  /\ visibleCount filtered
       (loadMoreTimes filtered (S (List.length filtered / 10)) st)
     = List.length filtered
  /\ (forall k,
        loadMoreTimes filtered k
          (loadMoreTimes filtered (S (List.length filtered / 10)) st)
        = loadMoreTimes filtered (S (List.length filtered / 10)) st).
Proof.
  intros Hpage Hp Hm.
  destruct (loadMoreTimes_exhausts filtered (List.length filtered / 10) st)
    as (H1 & H2 & H3 & H4); try assumption.
  - rewrite Hm. discriminate.
  - rewrite Hpage. unfold count. rewrite Nat2Z.inj_div.
    pose proof (Z.mod_pos_bound (Z.of_nat (List.length filtered)) 10 ltac:(lia)).
    pose proof (Z.div_mod (Z.of_nat (List.length filtered)) 10 ltac:(lia)).
    cbn -[Z.div Z.mul Z.add] in *. lia.
  - split; [exact H1|]. split; [exact H2|]. split.
    + rewrite visibleCount_min. unfold ASSETS_PER_PAGE, count in *. lia.
    + intros k. apply loadMoreTimes_blocked. right. exact H1.
Qed.

Lemma scrolling_reveals_all_witness :
  visibleCount (assetsOfLength 25)
    (loadMoreTimes (assetsOfLength 25) (S (25 / 10)%nat) initialTimeline)
  = 25%nat.
Proof.
  apply (scrolling_reveals_all (assetsOfLength 25) initialTimeline);
    reflexivity.
Defined.

(** X13.  An advance made while the list is still empty (before the assets
    have arrived) sets [hasMore] to false and keeps page 1; the arrival of the
    assets does not set it back, so further advances over the list that
    arrived change nothing and at most its first 10 items are shown. *)
Theorem advance_on_empty_list_sticks (st : TimelineState)
  (filtered : list AssetIP) :
  currentPage st = 1 -> isPaging st = false -> hasMore st = true ->
  hasMore (loadMore [] st) = false
  /\ currentPage (loadMore [] st) = 1
  /\ (forall k, loadMoreTimes filtered k (loadMore [] st) = loadMore [] st)
  /\ visibleCount filtered (loadMore [] st)
     = Nat.min 10 (List.length filtered).
Proof.
  intros Hpage Hp Hm. rewrite (loadMore_free [] st Hp Hm), Hpage.
  change (count [] <=? 1 * 10) with true. cbn iota.
  split; [reflexivity|]. split; [exact Hpage|]. split.
  - intros k. apply loadMoreTimes_blocked. right. reflexivity.
  - rewrite visibleCount_min.
    change (currentPage (setHasMore false st)) with (currentPage st).
    rewrite Hpage. reflexivity.
Qed.

Lemma advance_on_empty_list_sticks_witness :
  visibleCount (assetsOfLength 25)
    (loadMoreTimes (assetsOfLength 25) 7%nat (loadMore [] initialTimeline))
  = 10%nat.
Proof.
  rewrite (proj1 (proj2 (proj2 (advance_on_empty_list_sticks initialTimeline
                                  (assetsOfLength 25)
                                  eq_refl eq_refl eq_refl))) 7%nat).
  reflexivity.
Defined.

Lemma loadMore_resume_twice (c : LoadMoreClosure) (st : TimelineState) :
  loadMore_resume c (loadMore_resume c st) = loadMore_resume c st.
Proof.
  unfold loadMore_resume. cbn zeta.
  destruct (c_totalAvailable c - c_currentPage c * ASSETS_PER_PAGE <=? 0);
    reflexivity.
Qed.

(** X14.  Two calls of the [loadMore] of one render (the second arriving
    before the component has rendered again) both pass the guard and both
    arm the timer, yet after both have settled the page count is one more than
    at that render, not two more: the continuation writes the page it computed
    from the captured count, and running it twice is the same as running it
    once. *)
Theorem duplicate_advance_increments_once (filtered : list AssetIP)
  (st : TimelineState) :
  isPaging st = false -> hasMore st = true ->
  currentPage st * 10 < count filtered ->
  let c := renderLoadMore filtered st in
  loadMore_call c st = (setIsPaging true st, Some c)
  /\ loadMore_call c (setIsPaging true st) = (setIsPaging true st, Some c)
  /\ loadMore_resume c (loadMore_resume c (setIsPaging true st))
     = loadMore filtered st
  /\ currentPage (loadMore_resume c (loadMore_resume c (setIsPaging true st)))
     = currentPage st + 1.
Proof.
  intros Hp Hm Hmore. cbn zeta.
  assert (Hcall : loadMore_call (renderLoadMore filtered st) st
                  = (setIsPaging true st, Some (renderLoadMore filtered st))).
  { unfold loadMore_call, renderLoadMore. cbn. rewrite Hp, Hm. reflexivity. }
  assert (Hcall' : loadMore_call (renderLoadMore filtered st)
                     (setIsPaging true st)
                   = (setIsPaging true st, Some (renderLoadMore filtered st))).
  { unfold loadMore_call, renderLoadMore. cbn. rewrite Hp, Hm. reflexivity. }
  split; [exact Hcall|]. split; [exact Hcall'|].
  rewrite loadMore_resume_twice.
  assert (E : loadMore_resume (renderLoadMore filtered st) (setIsPaging true st)
              = loadMore filtered st).
  { unfold loadMore. rewrite Hcall. reflexivity. }
  rewrite E. split; [reflexivity|].
  rewrite (loadMore_free filtered st Hp Hm).
  destruct (Z.leb_spec (count filtered) (currentPage st * 10)); [lia|].
  reflexivity.
Qed.

Lemma duplicate_advance_increments_once_witness :
  currentPage
    (loadMore_resume (renderLoadMore (assetsOfLength 25) initialTimeline)
       (loadMore_resume (renderLoadMore (assetsOfLength 25) initialTimeline)
          (setIsPaging true initialTimeline))) = 2.
Proof.
  apply (duplicate_advance_increments_once (assetsOfLength 25) initialTimeline);
    reflexivity.
Defined.

(** X15.  A change of the filters during the delay of an advance is undone
    in part when the advance settles: the continuation works with the page
    count and the list length of the render it was created in.  If that list
    had more to show, the page count becomes the old page count plus one
    instead of 1; if it had not, [hasMore] becomes false although the reset
    had set it to true.  The new filter object stays in place. *)
Theorem filter_change_during_advance (filtered : list AssetIP)
  (st : TimelineState) (o : FilterObj) :
  isPaging st = false -> hasMore st = true ->
  ident o <> ident (filters st) ->
  let c := renderLoadMore filtered st in
  let during := setFilters o (fst (loadMore_call c st)) in
  let after := loadMore_resume c during in
  paginationReset during
  /\ filters after = o
  /\ isPaging after = false
  /\ (currentPage st * 10 < count filtered ->
      currentPage after = currentPage st + 1 /\ hasMore after = true)
  /\ (count filtered <= currentPage st * 10 ->
      currentPage after = 1 /\ hasMore after = false).
Proof.
  intros Hp Hm Hne. cbn zeta.
  unfold loadMore_call, renderLoadMore. cbn. rewrite Hp, Hm. cbn.
  unfold setFilters, Object_is. cbn.
  destruct (Nat.eqb_spec (ident o) (ident (filters st))); [contradiction|].
  unfold loadMore_resume, paginationReset, ASSETS_PER_PAGE, count. cbn.
  split; [split; reflexivity|].
  destruct (Z.leb_spec (Z.of_nat (List.length filtered) - currentPage st * 10) 0);
    cbn; repeat split; intros; try reflexivity; lia.
Qed.

Lemma filter_change_during_advance_witness :
  ident repricedFiltersObj <> ident (filters scrolledTimeline)
  /\ currentPage
       (loadMore_resume
          (renderLoadMore (assetsOfLength 45) (setHasMore true scrolledTimeline))
          (setFilters repricedFiltersObj
             (fst (loadMore_call
                     (renderLoadMore (assetsOfLength 45)
                        (setHasMore true scrolledTimeline))
                     (setHasMore true scrolledTimeline))))) = 4.
Proof.
  split; [discriminate|].
  apply (filter_change_during_advance (assetsOfLength 45)
           (setHasMore true scrolledTimeline) repricedFiltersObj);
    [reflexivity | reflexivity | discriminate | reflexivity].
Defined.

(** X16.  The rendered page is a prefix of the filtered list, of length the
    smaller of page count times 10 and the filtered count; it grows with the
    page count and never passes the end of the list. *)
Theorem paginatedAssets_prefix (filtered : list AssetIP) (page page' : Z) :
  0 <= page -> page <= page' ->
  (exists rest, filtered = (paginatedAssets filtered page ++ rest)%list)
  /\ Z.of_nat (List.length (paginatedAssets filtered page))
     = Z.min (page * 10) (count filtered)
  /\ (exists more,
        paginatedAssets filtered page'
        = (paginatedAssets filtered page ++ more)%list)
  /\ (count filtered <= page * 10 -> paginatedAssets filtered page = filtered).
Proof.
  intros Hpos Hle. unfold paginatedAssets, slice0, ASSETS_PER_PAGE, count.
  split; [|split; [|split]].
  - exists (skipn (Z.to_nat (page * 10)) filtered).
    symmetry. apply firstn_skipn.
  - rewrite length_firstn. lia.
  - exists (firstn (Z.to_nat (page' * 10) - Z.to_nat (page * 10))
              (skipn (Z.to_nat (page * 10)) filtered)).
    replace (Z.to_nat (page' * 10))
      with (Z.to_nat (page * 10) + (Z.to_nat (page' * 10) - Z.to_nat (page * 10)))%nat
      at 1 by lia.
    symmetry. apply take_take_drop.
  - intros Hall. apply firstn_all2. lia.
Qed.

Lemma paginatedAssets_prefix_witness :
  Z.of_nat (List.length (paginatedAssets (assetsOfLength 25) 3))
  = Z.min (3 * 10) (count (assetsOfLength 25)).
Proof.
  apply (paginatedAssets_prefix (assetsOfLength 25) 3 3); lia.
Defined.

(** ** What the component shows *)

Lemma filteredAssets_nil (h : Host) (f : FilterState) :
  filteredAssets h [] f = [].
Proof.
  rewrite filteredAssets_chain. cbn.
  repeat match goal with
         | |- context [String.eqb ?a ?b] => destruct (String.eqb a b)
         end; reflexivity.
Qed.

(** X17.  After a failed fetch the component shows the error panel with the
    message of the failure, whatever the filters and the pagination are,
    unless that message is the empty string: the empty message is stored as
    the error, tests as false, and the component shows the "No assets found"
    panel with its hint instead. *)
Theorem view_after_failure (h : Host) (s : LoaderState) (e : Thrown)
  (st : TimelineState) :
  (errorMessage e <> "" ->
   render h (loadCollectionOnce_settle h (Rejected e) s) st
   = ErrorPanel (errorMessage e))
  /\ (e = ThrownObject (Some "") ->
      error (loadCollectionOnce_settle h (Rejected e) s) = Some ""
      /\ render h (loadCollectionOnce_settle h (Rejected e) s) st
         = EmptyPanel "No assets found" true).
Proof.
  unfold render. cbn [loadCollectionOnce_settle allAssets error isLoading].
  rewrite filteredAssets_nil. cbn [field_truthy].
  split.
  - intros Hne. destruct (errorMessage e) as [|c r]; [contradiction|].
    reflexivity.
  - intros ->. split; reflexivity.
Qed.

Lemma view_after_failure_witness :
  errorMessage networkDown <> ""
  /\ render IsoHost.host
       (loadCollectionOnce_settle IsoHost.host (Rejected networkDown)
          (loadCollectionOnce initialLoader)) taggedTimeline
     = ErrorPanel "network down"
  /\ render IsoHost.host
       (loadCollectionOnce_settle IsoHost.host (Rejected silentFailure)
          (loadCollectionOnce initialLoader)) taggedTimeline
     = EmptyPanel "No assets found" true.
Proof.
  split; [discriminate|]. split.
  - apply (proj1 (view_after_failure IsoHost.host
                    (loadCollectionOnce initialLoader) networkDown
                    taggedTimeline)).
    discriminate.
  - apply (proj2 (view_after_failure IsoHost.host
                    (loadCollectionOnce initialLoader) silentFailure
                    taggedTimeline)).
    reflexivity.
Defined.

(** X18.  While no fetch has succeeded yet and a call of the loader has just
    started a fetch, the component shows the "Loading assets..." panel without
    the hint, whatever the filters are: the list is still empty and the error
    has been cleared. *)
Theorem view_while_loading (h : Host) (s : LoaderState) (st : TimelineState) :
  reachable h s -> fetchedRef s = false ->
  render h (loadCollectionOnce s) st = EmptyPanel "Loading assets..." false.
Proof.
  intros [evs Hrun] Hf.
  assert (Hinv : loader_inv s).
  { apply (loader_inv_run h evs initialLoader s); [|exact Hrun].
    split; [cbn; lia|]. split; [reflexivity | discriminate]. }
  destruct Hinv as (_ & Hempty & _). specialize (Hempty Hf).
  unfold render, loadCollectionOnce. rewrite Hf.
  cbn [allAssets error isLoading field_truthy]. rewrite Hempty.
  rewrite filteredAssets_nil. reflexivity.
Qed.

Lemma view_while_loading_witness :
  reachable IsoHost.host initialLoader
  /\ render IsoHost.host (loadCollectionOnce initialLoader) taggedTimeline
     = EmptyPanel "Loading assets..." false.
Proof.
  assert (Hr : reachable IsoHost.host initialLoader)
    by (exists []; reflexivity).
  split; [exact Hr|].
  apply (view_while_loading IsoHost.host initialLoader taggedTimeline Hr).
  reflexivity.
Defined.

(** X19.  When there is no error and some asset passes the filters, the
    component shows the list: with a page count of at least 1 the list of
    cards is not empty, the paging indicator is the in-flight flag, and the
    end-of-results line is shown exactly when [hasMore] is false. *)
Theorem view_of_list (h : Host) (hook : LoaderState) (st : TimelineState) :
  field_truthy (error hook) = false ->
  filteredAssets h (allAssets hook) (config (filters st)) <> [] ->
  1 <= currentPage st ->
  render h hook st
  = AssetList
      (paginatedAssets (filteredAssets h (allAssets hook) (config (filters st)))
         (currentPage st))
      (isPaging st) (negb (hasMore st))
  /\ paginatedAssets (filteredAssets h (allAssets hook) (config (filters st)))
       (currentPage st) <> [].
Proof.
  intros Herr Hne Hpage. unfold render. rewrite Herr. cbn zeta.
  set (filtered := filteredAssets h (allAssets hook) (config (filters st))) in *.
  assert (Hlen : (0 < List.length filtered)%nat).
  { destruct filtered; [contradiction | cbn; lia]. }
  assert (Hvis : (0 < List.length (paginatedAssets filtered (currentPage st)))%nat).
  { unfold paginatedAssets, slice0, ASSETS_PER_PAGE. rewrite length_firstn. lia. }
  destruct (Z.eqb_spec (Z.of_nat (List.length filtered)) 0); [lia|].
  destruct (Z.ltb_spec 0
              (Z.of_nat (List.length (paginatedAssets filtered (currentPage st)))));
    [|lia].
  rewrite andb_true_r. split; [reflexivity|].
  intros E. rewrite E in Hvis. cbn in Hvis. lia.
Qed.

Lemma view_of_list_witness :
  render IsoHost.host
    (loadCollectionOnce_settle IsoHost.host
       (Resolved [undatedAsset; datedAsset]) (loadCollectionOnce initialLoader))
    scrolledTimeline
  = AssetList [datedAsset; undatedAsset] false true.
Proof.
  apply (view_of_list IsoHost.host
           (loadCollectionOnce_settle IsoHost.host
              (Resolved [undatedAsset; datedAsset])
              (loadCollectionOnce initialLoader))
           scrolledTimeline);
    [reflexivity | discriminate | cbn; lia].
Defined.

(** ** The license filter *)

(** X20.  The license filter passes an asset exactly when some selected
    license occurs in the slug of the asset's license type or the slug occurs
    in that license.  Hence an asset whose license type is empty passes every
    non-empty selection, and a selection that contains the empty string passes
    every asset. *)
Theorem matches_license_partial (h : Host) (f : FilterState) (a : AssetIP) :
  (matches_license h f a = true
   <-> exists license, In license (licenses f)
         /\ (occurs_in license (licenseSlug h a)
             \/ occurs_in (licenseSlug h a) license))
  /\ (Asset.licenseType a = "" -> licenses f <> [] ->
      matches_license h f a = true)
  /\ (In "" (licenses f) -> matches_license h f a = true).
Proof.
  assert (Hiff : matches_license h f a = true
    <-> exists license, In license (licenses f)
          /\ (occurs_in license (licenseSlug h a)
              \/ occurs_in (licenseSlug h a) license)).
  { unfold matches_license, array_some, licenseSlug. cbn zeta.
    rewrite existsb_exists. split.
    - intros (l & Hin & Hm). exists l. split; [exact Hin|].
      apply orb_true_iff in Hm. rewrite !includes_occurs in Hm. exact Hm.
    - intros (l & Hin & Hm). exists l. split; [exact Hin|].
      apply orb_true_iff. rewrite !includes_occurs. exact Hm. }
  split; [exact Hiff|]. split.
  - intros Hempty Hsel. apply Hiff.
    destruct (licenses f) as [|l ls]; [contradiction|].
    exists l. split; [left; reflexivity|]. right.
    unfold licenseSlug. rewrite Hempty. exists "", l. reflexivity.
  - intros Hin. apply Hiff. exists "". split; [exact Hin|]. left.
    exists "", (licenseSlug h a). reflexivity.
Qed.

Lemma matches_license_partial_witness :
  In "" (licenses (mkFilters "" [] [""] false "all" "recent" [] (0, 100)))
  /\ matches_license IsoHost.host
       (mkFilters "" [] [""] false "all" "recent" [] (0, 100)) datedAsset
     = true.
Proof.
  assert (Hin : In ""
                  (licenses (mkFilters "" [] [""] false "all" "recent" []
                               (0, 100))))
    by (left; reflexivity).
  split; [exact Hin|].
  apply (proj2 (proj2 (matches_license_partial IsoHost.host
                         (mkFilters "" [] [""] false "all" "recent" [] (0, 100))
                         datedAsset))).
  exact Hin.
Defined.

(** ** The component as a machine: one advance at a time *)

Lemma setFilters_keeps (o : FilterObj) (st : TimelineState) :
  1 <= currentPage st ->
  1 <= currentPage (setFilters o st)
  /\ isPaging (setFilters o st) = isPaging st.
Proof.
  intros Hp. unfold setFilters. destruct (Object_is o (filters st)); cbn.
  - split; [exact Hp | reflexivity].
  - split; [lia | reflexivity].
Qed.

Lemma removeFilter_keeps (kind : string) (value : option string)
  (st : TimelineState) :
  1 <= currentPage st ->
  1 <= currentPage (removeFilter kind value st)
  /\ isPaging (removeFilter kind value st) = isPaging st.
Proof.
  intros Hp. destruct (removeFilter_cases kind value st) as [-> | [upd ->]].
  - split; [exact Hp | reflexivity].
  - unfold setFiltersWith.
    match goal with
    | |- context [setFilters ?o ?s] =>
        destruct (setFilters_keeps o s Hp) as [H1 H2]
    end.
    split; [exact H1 | exact H2].
Qed.

Lemma timeline_inv_step (h : Host) (ev : TimelineEvent)
  (m m' : TimelineState * list LoadMoreClosure) :
  timeline_inv m -> timeline_step h ev m = Some m' -> timeline_inv m'.
Proof.
  destruct m as [st pending]. unfold timeline_inv. cbn [fst snd].
  intros (Hp & Hwf & Hlen & Hflag & Hcl) Hstep.
  destruct ev as [assets| | |kind value|assetId]; cbn in Hstep.
  - unfold loadMore_call in Hstep. cbn in Hstep.
    destruct (isPaging st || negb (hasMore st)) eqn:Hg.
    + injection Hstep as <-. cbn. auto.
    + injection Hstep as <-. cbn.
      apply orb_false_iff in Hg. destruct Hg as [Hip _].
      assert (Hnil : pending = []).
      { destruct pending as [|c r]; [reflexivity|].
        assert (Hc : isPaging st = true) by (apply Hflag; discriminate).
        congruence. }
      subst pending. cbn.
      split; [exact Hp|]. split; [exact Hwf|]. split; [lia|].
      split; [split; [discriminate | reflexivity]|].
      constructor; [cbn; exact Hp | constructor].
  - destruct pending as [|c rest]; [discriminate|]. injection Hstep as <-.
    assert (rest = []) by (destruct rest; [reflexivity | cbn in Hlen; lia]).
    subst rest. inversion Hcl as [|? ? Hc _]; subst.
    unfold loadMore_resume, ASSETS_PER_PAGE. cbn.
    destruct (c_totalAvailable c - c_currentPage c * 10 <=? 0); cbn;
      (split; [lia|]); (split; [exact Hwf|]); (split; [lia|]);
      (split; [split; [discriminate | intros N; contradiction]|]);
      constructor.
  - injection Hstep as <-. cbn.
    destruct (setFilters_keeps defaultFiltersObj st Hp) as [H1 H2].
    unfold clearFilters. rewrite H2.
    split; [exact H1|]. split; [apply timeline_wf_clearFilters, Hwf|]. auto.
  - injection Hstep as <-. cbn.
    destruct (removeFilter_keeps kind value st Hp) as [H1 H2]. rewrite H2.
    split; [exact H1|]. split; [apply timeline_wf_removeFilter, Hwf|]. auto.
  - injection Hstep as <-. cbn. auto.
Qed.

Lemma timeline_inv_run (h : Host) (evs : list TimelineEvent) :
  forall m m', timeline_inv m -> timeline_run h evs m = Some m' ->
               timeline_inv m'.
Proof.
  induction evs as [|ev evs IH]; intros m m' Hinv Hrun; cbn in Hrun.
  - injection Hrun as <-. exact Hinv.
  - destruct (timeline_step h ev m) as [m1|] eqn:Hstep; [|discriminate].
    apply (IH m1 m'); [eapply timeline_inv_step; eassumption | exact Hrun].
Qed.

(** X21.  When every scroll event reaches the [loadMore] of the latest
    render, then after any sequence of scroll events, timer expiries and
    clicks on clear, remove and toggle, starting from the initial state: the
    page count is at least 1, at most one advance is pending, the in-flight
    flag is set exactly while one is pending, and a scroll event that arrives
    while one is pending changes nothing. *)
Theorem one_advance_at_a_time (h : Host) (evs : list TimelineEvent)
  (st : TimelineState) (pending : list LoadMoreClosure) :
  timeline_run h evs (initialTimeline, []) = Some (st, pending) ->
  1 <= currentPage st
  /\ (List.length pending <= 1)%nat
  /\ (isPaging st = true <-> pending <> [])
  /\ (pending <> [] ->
      forall assets,
        timeline_step h (ScrollToBottom assets) (st, pending)
        = Some (st, pending)).
Proof.
  intros Hrun.
  assert (Hinv : timeline_inv (st, pending)).
  { apply (timeline_inv_run h evs (initialTimeline, [])); [|exact Hrun].
    unfold timeline_inv. cbn.
    split; [lia|]. split; [apply timeline_wf_initial|]. split; [lia|].
    split; [split; [discriminate | intros N; contradiction]|]. constructor. }
  destruct Hinv as (Hp & _ & Hlen & Hflag & _). cbn [fst snd] in *.
  split; [exact Hp|]. split; [exact Hlen|]. split; [exact Hflag|].
  intros Hpend assets. cbn. unfold loadMore_call. cbn.
  rewrite (proj2 Hflag Hpend). reflexivity.
Qed.

Lemma one_advance_at_a_time_witness :
  timeline_run IsoHost.host
    [ScrollToBottom (assetsOfLength 25); ScrollToBottom (assetsOfLength 25)]
    (initialTimeline, [])
  = Some (setIsPaging true initialTimeline,
          [renderLoadMore (assetsOfLength 25) initialTimeline])
  /\ (List.length [renderLoadMore (assetsOfLength 25) initialTimeline] <= 1)%nat.
Proof.
  assert (Hrun : timeline_run IsoHost.host
                   [ScrollToBottom (assetsOfLength 25);
                    ScrollToBottom (assetsOfLength 25)]
                   (initialTimeline, [])
                 = Some (setIsPaging true initialTimeline,
                         [renderLoadMore (assetsOfLength 25) initialTimeline]))
    by reflexivity.
  split; [exact Hrun|].
  apply (one_advance_at_a_time IsoHost.host _ _ _ Hrun).
Defined.
